(** * Vivteno: the polling and state-update engine of the website monitor

    A shallow embedding of the Bubble Tea program: the messages and
    commands of the event loop, [Update], the bodies of the commands
    ([pingWebsiteCmdWithContext], [fetchHealthCmdWithContext],
    [schedulePing]), [View] and the configuration checks of [main].

    The development follows the program for several websites
    ([src/unnamed/part_000], where every message carries the index of its
    target); the program for one website ([src/main.go]) is embedded in the
    module [Single] and the same facts are proved of it in [SingleFacts].

    Conventions.
    - A Go [int] is a [Z]; a [time.Duration] is a [Z] counting nanoseconds.
    - A Go [error] is an [option string]: [None] is [nil], [Some s] is an
      error whose [Error()] is [s].
    - A slice is a [list]; reading or writing outside its bounds panics,
      which the embedding writes as [None].
    - A [map[string]any] is an [option (gmap string Any)], [None] being the
      nil map.
    - A [tea.Cmd] is a closure; it is represented by the data it captures
      ([Cmd]) and its body is given by [call], a tree of I/O requests.
    - Functions of the Go standard library and of lipgloss are variables of
      the sections that use them. *)

From Stdlib Require Import ZArith String Ascii List Lia Bool DecimalString.
From stdpp Require Import base option list strings gmap.
Import ListNotations.

Local Open Scope string_scope.
Local Open Scope Z_scope.

(** ** Basic types *)

Definition error := option string.
Definition Duration := Z.

(** A [time.Time] is the number of nanoseconds since the Unix epoch. *)
Definition Time := Z.

(** A [*time.Location], by what it answers to a lookup: the abbreviation
    and the offset (seconds east of UTC) in use at a Unix second. *)
Definition Location := Z -> string * Z.

(** [time.Second], in nanoseconds. *)
Definition Second : Duration := 1000000000.

(** Constants for configuration and timeouts. *)
Definition DefaultSchedule : string := "10s".
Definition DefaultTCPTimeout : Duration := 5 * Second.
Definition DefaultSleepBackoff : Duration := 10 * Second.
Definition DefaultTCPPort : string := "80".
Definition HTTPSScheme : string := "https://".

(** ** Slices *)

(** [s[i]] as an expression: [None] is the index-out-of-range panic. *)
Definition index {A} (s : list A) (i : Z) : option A :=
  if decide (0 <= i) then s !! Z.to_nat i else None.

(** [s[i] = v]: [None] is the index-out-of-range panic. *)
Definition assign {A} (s : list A) (i : Z) (v : A) : option (list A) :=
  if decide (0 <= i < Z.of_nat (length s))
  then Some (<[Z.to_nat i := v]> s)
  else None.

(** [len(s)]. *)
Definition len {A} (s : list A) : Z := Z.of_nat (length s).

(** ** Commands and messages *)

(** The closures handed to the Bubble Tea runtime, by what they capture. *)
#[warnings="-register-all"] Inductive Cmd : Type :=
| PingClosure (website : string) (idx : Z)
| HealthClosure (website healthEndpoint : string) (idx : Z)
| SleepClosure (dur : Duration) (idx : Z)
| Quit
| Batch (cmds : list Cmd).

Section Engine.

(** The dynamic type of the values of a decoded JSON object. *)
Variable Any : Type.

(** [time.ParseDuration]: a duration, or the text of the error. *)
Variable ParseDuration : string -> Duration + string.

Inductive Msg : Type :=
| tickMsgWithIndex (Time_ : Time) (Index : Z)
| pingResultWithIndex (Result : string) (Err : error) (Index : Z)
| healthResultGenericWithIndex
    (Data : option (gmap string Any)) (Err : error) (Index : Z)
| KeyMsg (key : string)
| QuitMsg
| OtherMsg.

(** The struct [model] of the program for several websites, declared
    beside [initialModel] in [src/.github/workflows/codeql.yml]; the
    per-target fields are slices indexed by the target index.  Of the
    context [ctx] the record keeps its state, [cancelled]; of the function
    [cancel] it keeps whether it is non-nil. *)
Record model : Type := Model {
  websites : list string;
  schedule : string;
  healthEndpoint : list string;
  lastPing : list string;
  lastError : list string;
  lastHealthGeneric : list (option (gmap string Any));
  timezone : option Location;
  quit : bool;
  cancel : bool;
  cancelled : bool
}.

Definition set_lastPing (m : model) (v : list string) : model :=
  Model (websites m) (schedule m) (healthEndpoint m) v (lastError m)
        (lastHealthGeneric m) (timezone m) (quit m) (cancel m) (cancelled m).

Definition set_lastError (m : model) (v : list string) : model :=
  Model (websites m) (schedule m) (healthEndpoint m) (lastPing m) v
        (lastHealthGeneric m) (timezone m) (quit m) (cancel m) (cancelled m).

Definition set_lastHealthGeneric (m : model)
    (v : list (option (gmap string Any))) : model :=
  Model (websites m) (schedule m) (healthEndpoint m) (lastPing m)
        (lastError m) v (timezone m) (quit m) (cancel m) (cancelled m).

Definition set_quit (m : model) : model :=
  Model (websites m) (schedule m) (healthEndpoint m) (lastPing m)
        (lastError m) (lastHealthGeneric m) (timezone m) true (cancel m)
        (if cancel m then true else cancelled m).

(** ** Building the commands *)

Definition pingWebsiteCmdWithContext (website : string) (idx : Z) : Cmd :=
  PingClosure website idx.

Definition fetchHealthCmdWithContext
    (website healthEndpoint : string) (idx : Z) : Cmd :=
  HealthClosure website healthEndpoint idx.

(** The duration is parsed when the command is built, outside the closure;
    the boolean tells whether the [err != nil] branch was taken. *)
Definition scheduleDuration (schedule : string) : Duration * bool :=
  match ParseDuration schedule with
  | inl dur => (dur, false)
  | inr _ => (DefaultSleepBackoff, true)
  end.

Definition schedulePing (schedule : string) (idx : Z) : Cmd :=
  SleepClosure (fst (scheduleDuration schedule)) idx.

Definition isValidSchedule (s : string) : bool :=
  match ParseDuration s with
  | inl _ => true
  | inr _ => false
  end.

(** [Init]: one ping per website, batched. *)
Definition Init (m : model) : Cmd :=
  Batch (imap (fun i website => pingWebsiteCmdWithContext website (Z.of_nat i))
              (websites m)).

(** ** Update *)

(** The result is [None] when an index expression panics; the command is
    [None] when [Update] returns a nil [tea.Cmd]. *)
Definition Update (m : model) (msg : Msg) : option (model * option Cmd) :=
  match msg with
  | tickMsgWithIndex _ Index =>
      website ← index (websites m) Index;
      Some (m, Some (pingWebsiteCmdWithContext website Index))
  | pingResultWithIndex Result (Some err) Index =>
      le ← assign (lastError m) Index err;
      lp ← assign (lastPing m) Index "";
      lh ← assign (lastHealthGeneric m) Index None;
      let m := set_lastHealthGeneric (set_lastPing (set_lastError m le) lp) lh in
      Some (m, Some (schedulePing (schedule m) Index))
  | pingResultWithIndex Result None Index =>
      lp ← assign (lastPing m) Index Result;
      le ← assign (lastError m) Index "";
      let m := set_lastError (set_lastPing m lp) le in
      if decide (len (healthEndpoint m) > Index) then
        he ← index (healthEndpoint m) Index;
        if decide (he <> "") then
          website ← index (websites m) Index;
          he' ← index (healthEndpoint m) Index;
          Some (m, Some (fetchHealthCmdWithContext website he' Index))
        else Some (m, Some (schedulePing (schedule m) Index))
      else Some (m, Some (schedulePing (schedule m) Index))
  | healthResultGenericWithIndex Data None Index =>
      lh ← assign (lastHealthGeneric m) Index Data;
      let m := set_lastHealthGeneric m lh in
      Some (m, Some (schedulePing (schedule m) Index))
  | healthResultGenericWithIndex Data (Some err) Index =>
      lh ← assign (lastHealthGeneric m) Index None;
      le ← assign (lastError m) Index err;
      let m := set_lastError (set_lastHealthGeneric m lh) le in
      Some (m, Some (schedulePing (schedule m) Index))
  | KeyMsg key =>
      if decide (key = "ctrl+c" \/ key = "q")
      then Some (set_quit m, Some Quit)
      else Some (m, None)
  | QuitMsg | OtherMsg => Some (m, None)
  end.

End Engine.

Arguments tickMsgWithIndex {Any} Time_ Index.
Arguments pingResultWithIndex {Any} Result Err Index.
Arguments healthResultGenericWithIndex {Any} Data Err Index.
Arguments KeyMsg {Any} key.
Arguments QuitMsg {Any}.
Arguments OtherMsg {Any}.
Arguments websites {Any} m.
Arguments schedule {Any} m.
Arguments healthEndpoint {Any} m.
Arguments lastPing {Any} m.
Arguments lastError {Any} m.
Arguments lastHealthGeneric {Any} m.
Arguments timezone {Any} m.
Arguments quit {Any} m.
Arguments cancel {Any} m.
Arguments cancelled {Any} m.
Arguments Init {Any} m.
Arguments Update {Any} ParseDuration m msg.

(** ** Text helpers *)

(** The newline character of Go's ["\n"]. *)
Definition nl : string := String (ascii_of_nat 10) "".

(** The double quote character. *)
Definition dq : string := String (ascii_of_nat 34) "".

(** [%d] and [%v] of an integer. *)
Definition itoa (n : Z) : string := NilZero.string_of_int (Z.to_int n).

(** [strings.ContainsRune] for a one-byte rune. *)
Fixpoint containsByte (c : ascii) (s : string) : bool :=
  match s with
  | EmptyString => false
  | String d r => if Ascii.eqb c d then true else containsByte c r
  end.

(** [net.JoinHostPort]: a host holding a colon is put between brackets. *)
Definition JoinHostPort (host port : string) : string :=
  if containsByte ":" host
  then "[" +:+ host +:+ "]:" +:+ port
  else host +:+ ":" +:+ port.

(** ** The bodies of the commands *)

Record Request : Type := { Method : string; URL : string }.
Record Response : Type := { StatusCode : Z; Body : nat }.

Section Effects.

Variable Any : Type.

(** What a command asks of the outside world, indexed by the answer. *)
Inductive Event : Type -> Type :=
| NowE : Event Time
| SleepE (d : Duration) : Event unit
| DialE (timeout : Duration) (network address : string) : Event (nat + string)
| CloseConnE (conn : nat) : Event unit
| NewRequestE (method url : string) : Event (Request + string)
| DoE (req : Request) : Event (Response + string)
| ReadAllE (body : nat) : Event (string + string)
| CloseBodyE (body : nat) : Event unit
| RangeE (data : gmap string Any) : Event (list (string * Any)).

(** A computation: it returns, panics, or asks the world and goes on. *)
Inductive IO (A : Type) : Type :=
| Ret (a : A)
| Crash
| Vis (X : Type) (e : Event X) (k : X -> IO A).

Arguments Ret {A} a.
Arguments Crash {A}.
Arguments Vis {A X} e k.

Fixpoint io_bind {A B} (f : A -> IO B) (p : IO A) : IO B :=
  match p with
  | Ret a => f a
  | Crash => Crash
  | Vis e k => Vis e (fun x => io_bind f (k x))
  end.

#[local] Instance IO_ret : MRet IO := fun A a => Ret a.
#[local] Instance IO_bind : MBind IO := fun A B f p => io_bind f p.

Definition trigger {X} (e : Event X) : IO X := Vis e Ret.

(** A request made to the world; a trace is the list of the requests a
    run has made, in order. *)
Inductive Call : Type := MkCall (X : Type) (e : Event X).

Inductive Outcome (A : Type) : Type :=
| Returned (a : A)
| Panicked.

Arguments Returned {A} a.
Arguments Panicked {A}.

(** Running a computation against a world [h] with state [w]. *)
Fixpoint run {A W} (h : forall X, Event X -> W -> X * W) (p : IO A) (w : W)
  : Outcome A * list Call * W :=
  match p with
  | Ret a => (Returned a, [], w)
  | Crash => (Panicked, [], w)
  | Vis e k =>
      let '(x, w1) := h _ e w in
      let '(o, t, w2) := run h (k x) w1 in
      (o, MkCall _ e :: t, w2)
  end.

Definition result {A W} (r : Outcome A * list Call * W) : Outcome A := fst (fst r).
Definition trace {A W} (r : Outcome A * list Call * W) : list Call := snd (fst r).

Local Abbreviation Msg := (Msg Any).

Definition pingBody (website : string) (idx : Z) : IO Msg :=
  start ← trigger NowE;
  conn ← trigger (DialE DefaultTCPTimeout "tcp" (JoinHostPort website DefaultTCPPort));
  match conn with
  | inr err => Ret (pingResultWithIndex "" (Some err) idx)
  | inl c =>
      _ ← trigger (CloseConnE c);
      now ← trigger NowE;
      let elapsed := now - start in
      let result :=
        "Ping to " +:+ website +:+ ":" +:+ nl +:+
        "  TCP connect successful" +:+ nl +:+
        "  Time: " +:+ itoa (Z.quot elapsed 1000000) +:+ " ms" in
      Ret (pingResultWithIndex result None idx)
  end.

(** [unmarshalObject] is [json.Unmarshal] into a [map[string]any] that
    starts nil: the map (possibly still nil) or the text of the error. *)
Variable unmarshalObject : string -> option (gmap string Any) + string.

Definition healthBody (website healthEndpoint : string) (idx : Z) : IO Msg :=
  if decide (healthEndpoint = "") then
    Ret (healthResultGenericWithIndex None
           (Some "health endpoint not configured") idx)
  else
    let url := HTTPSScheme +:+ website +:+ healthEndpoint in
    req ← trigger (NewRequestE "GET" url);
    match req with
    | inr err => Ret (healthResultGenericWithIndex None (Some err) idx)
    | inl req =>
        resp ← trigger (DoE req);
        match resp with
        | inr err => Ret (healthResultGenericWithIndex None (Some err) idx)
        | inl resp =>
            body ← trigger (ReadAllE (Body resp));
            r ← match body with
                | inr err =>
                    Ret (healthResultGenericWithIndex None (Some err) idx)
                | inl body =>
                    if decide (StatusCode resp < 200 \/ StatusCode resp >= 300)
                    then Ret (healthResultGenericWithIndex None
                           (Some ("health endpoint HTTP " +:+
                                  itoa (StatusCode resp) +:+ ": " +:+ body))
                           idx)
                    else
                      match unmarshalObject body with
                      | inr err =>
                          Ret (healthResultGenericWithIndex None
                                 (Some ("invalid JSON from health endpoint: "
                                        +:+ err +:+ nl +:+ "Body: " +:+ body))
                                 idx)
                      | inl data =>
                          Ret (healthResultGenericWithIndex data None idx)
                      end
                end;
            _ ← trigger (CloseBodyE (Body resp));
            Ret r
        end
    end.

Definition sleepBody (dur : Duration) (idx : Z) : IO Msg :=
  _ ← trigger (SleepE dur);
  now ← trigger NowE;
  Ret (tickMsgWithIndex now idx).

(** The body of each closure; a batch is run by the runtime, command by
    command, and is not a body of this program. *)
Definition call (c : Cmd) : option (IO Msg) :=
  match c with
  | PingClosure website idx => Some (pingBody website idx)
  | HealthClosure website healthEndpoint idx =>
      Some (healthBody website healthEndpoint idx)
  | SleepClosure dur idx => Some (sleepBody dur idx)
  | Quit => Some (Ret (QuitMsg))
  | Batch _ => None
  end.

End Effects.

Arguments NowE {Any}.
Arguments SleepE {Any} d.
Arguments DialE {Any} timeout network address.
Arguments CloseConnE {Any} conn.
Arguments NewRequestE {Any} method url.
Arguments DoE {Any} req.
Arguments ReadAllE {Any} body.
Arguments CloseBodyE {Any} body.
Arguments RangeE {Any} data.
Arguments Ret {Any A} a.
Arguments Crash {Any A}.
Arguments Vis {Any A X} e k.
Arguments trigger {Any X} e.
Arguments MkCall {Any X} e.
Arguments Returned {A} a.
Arguments Panicked {A}.
Arguments run {Any A W} h p w.
Arguments result {Any A W} r.
Arguments trace {Any A W} r.
Arguments pingBody {Any} website idx.
Arguments healthBody {Any} unmarshalObject website healthEndpoint idx.
Arguments sleepBody {Any} dur idx.
Arguments call {Any} unmarshalObject c.

(** ** Formatting a time *)

(** [appendInt]: the decimal form of [x], zero-padded to [width] digits,
    after a minus sign when [x] is negative. *)
Definition appendInt (x : Z) (width : nat) : string :=
  let s := itoa (Z.abs x) in
  (if x <? 0 then "-" else "") +:+
  string_of_list_ascii (repeat "0"%char (width - String.length s)%nat) +:+ s.

(** The Gregorian date of the day [days] days after 1970-01-01. *)
Definition civil (days : Z) : Z * Z * Z :=
  let z := days + 719468 in
  let era := z / 146097 in
  let doe := z - era * 146097 in
  let yoe := (doe - doe / 1460 + doe / 36524 - doe / 146096) / 365 in
  let doy := doe - (365 * yoe + yoe / 4 - yoe / 100) in
  let mp := (5 * doy + 2) / 153 in
  let d := doy - (153 * mp + 2) / 5 + 1 in
  let m := if mp <? 10 then mp + 3 else mp - 9 in
  let y := yoe + era * 400 + (if m <=? 2 then 1 else 0) in
  (y, m, d).

(** [t.In(loc).Format(DisplayTimeFormat)], the layout being
    ["2006-01-02 15:04:05 MST"]; a zone without abbreviation is printed as
    its offset. *)
Definition FormatDisplay (loc : Location) (t : Time) : string :=
  let unix := t / 1000000000 in
  let '(name, offset) := loc unix in
  let abs := unix + offset in
  let '(y, mo, d) := civil (abs / 86400) in
  let secs := abs mod 86400 in
  let zone := Z.quot offset 60 in
  appendInt y 4 +:+ "-" +:+ appendInt mo 2 +:+ "-" +:+ appendInt d 2 +:+ " " +:+
  appendInt (secs / 3600) 2 +:+ ":" +:+ appendInt (secs mod 3600 / 60) 2 +:+ ":" +:+
  appendInt (secs mod 60) 2 +:+ " " +:+
  (if decide (name <> "") then name
   else (if zone <? 0 then "-" else "+") +:+
        appendInt (Z.quot (Z.abs zone) 60) 2 +:+
        appendInt (Z.rem (Z.abs zone) 60) 2).

(** Common timestamp field names. *)
Definition TimestampField1 : string := "timestamp".
Definition TimestampField2 : string := "time".
Definition TimestampField3 : string := "date".

(** ** Styles *)

(** A lipgloss style, by the settings the program gives it. *)
Record Style : Type := {
  bold : bool;
  foreground : option string;
  background : option string;
  paddingTop : Z;
  paddingRight : Z;
  paddingBottom : Z;
  paddingLeft : Z;
  marginTop : Z;
  marginBottom : Z
}.

Definition NewStyle : Style :=
  {| bold := false; foreground := None; background := None;
     paddingTop := 0; paddingRight := 0; paddingBottom := 0; paddingLeft := 0;
     marginTop := 0; marginBottom := 0 |}.

Definition headerStyle : Style :=
  {| bold := true; foreground := Some "15"; background := Some "0";
     paddingTop := 0; paddingRight := 2; paddingBottom := 0; paddingLeft := 2;
     marginTop := 0; marginBottom := 1 |}.

Definition sectionTitle : Style :=
  {| bold := true; foreground := Some "7"; background := None;
     paddingTop := 0; paddingRight := 1; paddingBottom := 0; paddingLeft := 0;
     marginTop := 0; marginBottom := 0 |}.

Definition infoStyle : Style :=
  {| bold := false; foreground := Some "10"; background := None;
     paddingTop := 0; paddingRight := 0; paddingBottom := 0; paddingLeft := 0;
     marginTop := 0; marginBottom := 0 |}.

Definition errorStyle : Style :=
  {| bold := true; foreground := Some "9"; background := None;
     paddingTop := 0; paddingRight := 1; paddingBottom := 0; paddingLeft := 1;
     marginTop := 1; marginBottom := 0 |}.

Definition healthKeyStyle : Style :=
  {| bold := true; foreground := Some "7"; background := None;
     paddingTop := 0; paddingRight := 0; paddingBottom := 0; paddingLeft := 0;
     marginTop := 0; marginBottom := 0 |}.

Definition healthValueStyle : Style :=
  {| bold := false; foreground := Some "15"; background := None;
     paddingTop := 0; paddingRight := 0; paddingBottom := 0; paddingLeft := 0;
     marginTop := 0; marginBottom := 0 |}.

Definition footerStyle : Style :=
  {| bold := false; foreground := Some "8"; background := None;
     paddingTop := 1; paddingRight := 0; paddingBottom := 1; paddingLeft := 0;
     marginTop := 1; marginBottom := 0 |}.

(** [strings.Split(s, sep)] for a one-byte separator. *)
Fixpoint splitByte (c : ascii) (s : string) : list string :=
  match s with
  | EmptyString => [""]
  | String d r =>
      if Ascii.eqb c d then "" :: splitByte c r
      else match splitByte c r with
           | [] => [String d ""]
           | x :: xs => String d x :: xs
           end
  end.

(** [strings.Repeat]. *)
Fixpoint Repeat (s : string) (n : nat) : string :=
  match n with
  | O => ""
  | S n => s +:+ Repeat s n
  end.

(** ** View *)

Section Presenter.

Variable Any : Type.

(** [Style.Render] of lipgloss. *)
Variable Render : Style -> string -> string.
(** The type assertion [v.(string)]. *)
Variable asString : Any -> option string.
(** [fmt.Sprintf("%v", v)]. *)
Variable sprintV : Any -> string.
(** [time.Parse(time.RFC3339, s)], [None] when it fails. *)
Variable parseRFC3339 : string -> option Time.
(** [time.Local], the location of the times [time.Now] returns. *)
Variable Local : Location.

Local Abbreviation IO := (IO Any).
Local Abbreviation model := (model Any).
#[local] Existing Instances IO_ret IO_bind.

Definition renderSection (title value : string) : string :=
  Render sectionTitle title +:+ " " +:+ Render infoStyle value.

(** One line of the health section, for the entry [k], [v]. *)
Definition renderHealthLine (tz : option Location) (kv : string * Any) : string :=
  let '(k, v) := kv in
  match asString v with
  | Some s =>
      if decide (k = TimestampField1 \/ k = TimestampField2 \/ k = TimestampField3)
      then
        let s := match tz with
                 | Some loc =>
                     match parseRFC3339 s with
                     | Some t => FormatDisplay loc t
                     | None => s
                     end
                 | None => s
                 end in
        "  " +:+ Render healthKeyStyle (k +:+ ":") +:+ " " +:+ Render healthValueStyle s
      else
        "  " +:+ Render healthKeyStyle (k +:+ ":") +:+ " " +:+
        Render healthValueStyle (sprintV v)
  | None =>
      "  " +:+ Render healthKeyStyle (k +:+ ":") +:+ " " +:+
      Render healthValueStyle (sprintV v)
  end.

(** The entries of the map are visited in the order the runtime picks. *)
Definition renderHealthSection (data : gmap string Any) (tz : option Location)
  : IO string :=
  entries ← trigger (RangeE data);
  let lines := Render sectionTitle "Health Endpoint:"
               :: List.map (renderHealthLine tz) entries in
  Ret (String.concat nl lines).

(** An index expression inside a computation. *)
Definition at_ {A} (s : list A) (i : Z) : IO A :=
  match index s i with
  | Some x => Ret x
  | None => Crash
  end.

(** The ping result, one call of [Render] per line. *)
Definition renderPingLines (lines : list string) : string :=
  String.concat "" (imap (fun j line =>
    if decide (j = 0%nat) then Render infoStyle line
    else nl +:+ Render infoStyle line) lines).

(** The body of the loop over the websites, for the website at index [i];
    [b] is what the builder holds so far. *)
Definition viewWebsite (m : model) (b : string) (i : Z) (website : string)
  : IO string :=
  let b := b +:+ renderSection "Website:" website +:+ nl in
  let b := b +:+ renderSection "Schedule:" (schedule m) +:+ nl in
  lp ← at_ (lastPing m) i;
  b ← (if decide (lp <> "") then
         now ← trigger NowE;
         let loc := match timezone m with
                    | Some tz => tz
                    | None => Local
                    end in
         let b := b +:+ nl in
         let b := b +:+ renderSection "Last checked:" (FormatDisplay loc now) in
         let b := b +:+ nl in
         lp' ← at_ (lastPing m) i;
         let b := b +:+ renderPingLines (splitByte (ascii_of_nat 10) lp') in
         Ret (b +:+ nl)
       else Ret b);
  b ← (if decide (len (healthEndpoint m) > i) then
         he ← at_ (healthEndpoint m) i;
         if decide (he <> "") then
           lh ← at_ (lastHealthGeneric m) i;
           match lh with
           | Some _ =>
               lh' ← at_ (lastHealthGeneric m) i;
               s ← match lh' with
                   | Some data => renderHealthSection data (timezone m)
                   | None => Ret (Render sectionTitle "Health Endpoint:")
                   end;
               Ret (b +:+ nl +:+ s +:+ nl)
           | None => Ret b
           end
         else Ret b
       else Ret b);
  le ← at_ (lastError m) i;
  b ← (if decide (le <> "") then
         le' ← at_ (lastError m) i;
         Ret (b +:+ nl +:+ Render errorStyle ("FAILED: " +:+ le') +:+ nl)
       else Ret b);
  if decide (len (websites m) > 1 /\ i < len (websites m) - 1)
  then Ret (b +:+ nl +:+ Repeat "-" 40 +:+ nl +:+ nl)
  else Ret b.

(** The loop [for i, website := range m.websites]. *)
Fixpoint viewLoop (m : model) (b : string) (i : Z) (ws : list string) : IO string :=
  match ws with
  | [] => Ret b
  | website :: ws =>
      b ← viewWebsite m b i website;
      viewLoop m b (i + 1) ws
  end.

Definition View (m : model) : IO string :=
  let b := Render headerStyle " Vivteno - Website Health Monitor " in
  let b := b +:+ nl +:+ nl in
  b ← viewLoop m b 0 (websites m);
  Ret (b +:+ Render footerStyle "Press q or Ctrl+C to quit.").

End Presenter.

Arguments renderHealthLine {Any} Render asString sprintV parseRFC3339 tz kv.
Arguments renderHealthSection {Any} Render asString sprintV parseRFC3339 data tz.
Arguments at_ {Any A} s i.
Arguments viewWebsite {Any} Render asString sprintV parseRFC3339 Local m b i website.
Arguments viewLoop {Any} Render asString sprintV parseRFC3339 Local m b i ws.
Arguments View {Any} Render asString sprintV parseRFC3339 Local m.

(** ** Validation helpers *)

(** Regular expressions over bytes, matched with derivatives. *)
Inductive regex : Type :=
| RNone
| REps
| RClass (p : ascii -> bool)
| RSeq (r1 r2 : regex)
| RAlt (r1 r2 : regex)
| RStar (r : regex).

Definition RPlus (r : regex) : regex := RSeq r (RStar r).

Fixpoint nullable (r : regex) : bool :=
  match r with
  | RNone => false
  | REps => true
  | RClass _ => false
  | RSeq r1 r2 => nullable r1 && nullable r2
  | RAlt r1 r2 => nullable r1 || nullable r2
  | RStar _ => true
  end.

Fixpoint deriv (c : ascii) (r : regex) : regex :=
  match r with
  | RNone => RNone
  | REps => RNone
  | RClass p => if p c then REps else RNone
  | RSeq r1 r2 =>
      if nullable r1
      then RAlt (RSeq (deriv c r1) r2) (deriv c r2)
      else RSeq (deriv c r1) r2
  | RAlt r1 r2 => RAlt (deriv c r1) (deriv c r2)
  | RStar r1 => RSeq (deriv c r1) (RStar r1)
  end.

(** [MatchString] of a pattern anchored at both ends by [^] and [$]. *)
Fixpoint matchAnchored (r : regex) (s : string) : bool :=
  match s with
  | EmptyString => nullable r
  | String c s => matchAnchored (deriv c r) s
  end.

(** The class [[a-zA-Z0-9-]]. *)
Definition hostClass (c : ascii) : bool :=
  let n := nat_of_ascii c in
  ((97 <=? n) && (n <=? 122) || (65 <=? n) && (n <=? 90) ||
   (48 <=? n) && (n <=? 57) || (n =? 45))%nat.

(** The pattern [^([a-zA-Z0-9-]+\.)*[a-zA-Z0-9-]+$]. *)
Definition hostPattern : regex :=
  RSeq (RStar (RSeq (RPlus (RClass hostClass)) (RClass (Ascii.eqb "."))))
       (RPlus (RClass hostClass)).

(** ** The entry point, up to the start of the program *)

(** What [main] has done when it stops reading the configuration: it has
    left with [os.Exit] after printing [stdout], or it goes on to build the
    model from these arguments of [initialModel] and this [timezone]. *)
Inductive Startup : Type :=
| Exit (code : Z) (stdout : string)
| Run (websites : list string) (schedule : string)
      (healthEndpoints : list string) (loc : Location).

Section Main.

(** [net.ParseIP(host) != nil]. *)
Variable ParseIP : string -> bool.
Variable ParseDuration : string -> Duration + string.
(** [time.LoadLocation]. *)
Variable LoadLocation : string -> Location + string.
Variable Local : Location.
(** [json.Unmarshal] into a [[]string] that starts nil. *)
Variable unmarshalStrings : string -> list string + string.
(** The verb [%q]. *)
Variable quote : string -> string.

Definition isValidHostname (host : string) : bool :=
  if ParseIP host then true
  else matchAnchored hostPattern host.

(** The range loop over the websites: the first invalid one, if any. *)
Fixpoint firstInvalid (websites : list string) : option string :=
  match websites with
  | [] => None
  | w :: ws => if negb (isValidHostname w) then Some w else firstInvalid ws
  end.

(** [make([]string, n)]. *)
Definition make (n : nat) : list string := replicate n "".

(** The health endpoints: the parsed array, the single value for every
    website, or nothing; [None] is the exit on a length mismatch. *)
Definition healthEndpointsOf (healthEndpointEnv : string) (websites : list string)
  : option (list string) :=
  if decide (healthEndpointEnv <> "") then
    match unmarshalStrings healthEndpointEnv with
    | inr _ =>
        Some (fmap (fun _ => healthEndpointEnv) (make (length websites)))
    | inl healthEndpoints =>
        if decide (len healthEndpoints <> len websites) then None
        else Some healthEndpoints
    end
  else Some (make (length websites)).

(** The message printed when [PING_WEBSITE] is not a non-empty array. *)
Definition websiteUsage : string :=
  "PING_WEBSITE must be a JSON array of at least one website, e.g. [" +:+ dq +:+
  "example.com" +:+ dq +:+ "]".

(** [getenv] is [os.Getenv] once [godotenv.Load] has run. *)
Definition main (getenv : string -> string) : Startup :=
  let websiteEnv := getenv "PING_WEBSITE" in
  let schedule := getenv "PING_SCHEDULE" in
  let timezone := getenv "TIMEZONE" in
  let healthEndpointEnv := getenv "HEALTH_ENDPOINT" in
  match unmarshalStrings websiteEnv with
  | inr _ =>
      Exit 1 (websiteUsage +:+ nl)
  | inl websites =>
      if decide (len websites = 0) then
        Exit 1 (websiteUsage +:+ nl)
      else
        match firstInvalid websites with
        | Some w => Exit 1 ("Invalid website in PING_WEBSITE: " +:+ quote w +:+ nl)
        | None =>
            let schedule :=
              if decide (schedule = "") then DefaultSchedule else schedule in
            if negb (isValidSchedule ParseDuration schedule) then
              Exit 1 ("Invalid PING_SCHEDULE: " +:+ quote schedule +:+ nl)
            else
              match (if decide (timezone <> "") then LoadLocation timezone
                     else inl Local) with
              | inr _ => Exit 1 ("Invalid TIMEZONE: " +:+ quote timezone +:+ nl)
              | inl loc =>
                  match healthEndpointsOf healthEndpointEnv websites with
                  | None =>
                      Exit 1 ("HEALTH_ENDPOINT must be a JSON array with the same length as PING_WEBSITE, or a single string." +:+ nl)
                  | Some healthEndpoints =>
                      Run websites schedule healthEndpoints loc
                  end
              end
        end
  end.

(** The schedule in force: the default when the variable is empty. *)
Definition effectiveSchedule (getenv : string -> string) : string :=
  if decide (getenv "PING_SCHEDULE" = "") then DefaultSchedule
  else getenv "PING_SCHEDULE".

(** The configurations [main] refuses: a website that is no host name (the
    empty string among them, which is no IP literal), a schedule that is set
    and does not parse, a time zone that is set and unknown, an array of
    health paths of another length than the array of websites. *)
Definition invalidConfiguration (getenv : string -> string) : Prop :=
  (exists websites w,
     unmarshalStrings (getenv "PING_WEBSITE") = inl websites /\
     In w websites /\ isValidHostname w = false) \/
  (ParseIP "" = false /\
   exists websites,
     unmarshalStrings (getenv "PING_WEBSITE") = inl websites /\
     In "" websites) \/
  (getenv "PING_SCHEDULE" <> "" /\
   isValidSchedule ParseDuration (getenv "PING_SCHEDULE") = false) \/
  (getenv "TIMEZONE" <> "" /\
   exists e, LoadLocation (getenv "TIMEZONE") = inr e) \/
  (getenv "HEALTH_ENDPOINT" <> "" /\
   exists websites healthEndpoints,
     unmarshalStrings (getenv "PING_WEBSITE") = inl websites /\
     unmarshalStrings (getenv "HEALTH_ENDPOINT") = inl healthEndpoints /\
     length healthEndpoints <> length websites).

(** The messages [main] prints before it exits. *)
Definition startupMessage (getenv : string -> string) (out : string) : Prop :=
  out = websiteUsage +:+ nl \/
  (exists w, isValidHostname w = false /\
             out = "Invalid website in PING_WEBSITE: " +:+ quote w +:+ nl) \/
  out = "Invalid PING_SCHEDULE: " +:+ quote (effectiveSchedule getenv) +:+ nl \/
  out = "Invalid TIMEZONE: " +:+ quote (getenv "TIMEZONE") +:+ nl \/
  out = "HEALTH_ENDPOINT must be a JSON array with the same length as PING_WEBSITE, or a single string." +:+ nl.

(** Everything but the health paths is accepted by [main]: the websites
    [websites], the schedule [sched] and the location [loc]. *)
Definition restAccepted (getenv : string -> string)
    (websites : list string) (sched : string) (loc : Location) : Prop :=
  unmarshalStrings (getenv "PING_WEBSITE") = inl websites /\
  websites <> [] /\
  firstInvalid websites = None /\
  sched = effectiveSchedule getenv /\
  isValidSchedule ParseDuration sched = true /\
  (if decide (getenv "TIMEZONE" <> "") then LoadLocation (getenv "TIMEZONE")
   else inl Local) = inl loc.

End Main.

(** ** The event loop and its invariant *)

Section Loop.

Variable Any : Type.
Variable ParseDuration : string -> Duration + string.
Variable Local : Location.

Local Abbreviation model := (model Any).
Local Abbreviation Msg := (Msg Any).

(** Every per-target slice of the state has one slot per website. *)
Definition wf (m : model) : Prop :=
  length (lastPing m) = length (websites m) /\
  length (lastError m) = length (websites m) /\
  length (lastHealthGeneric m) = length (websites m).

(** [idx] is the index of a website of [m]. *)
Definition target (m : model) (idx : Z) : Prop :=
  0 <= idx < len (websites m).

(** The target a per-target message is about. *)
Definition msgIndex (msg : Msg) : option Z :=
  match msg with
  | tickMsgWithIndex _ i => Some i
  | pingResultWithIndex _ _ i => Some i
  | healthResultGenericWithIndex _ _ i => Some i
  | KeyMsg _ | QuitMsg | OtherMsg => None
  end.

(** The target a probe or a delayed timer is scheduled for; [Quit] and a
    batch are neither. *)
Definition scheduledFor (c : Cmd) : option Z :=
  match c with
  | PingClosure _ i => Some i
  | HealthClosure _ _ i => Some i
  | SleepClosure _ i => Some i
  | Quit | Batch _ => None
  end.

(** The runtime applies [Update] to the messages one at a time; [feed]
    gives the last model and the commands returned on the way. *)
Fixpoint feed (m : model) (msgs : list Msg) : option (model * list Cmd) :=
  match msgs with
  | [] => Some (m, [])
  | msg :: msgs =>
      '(m1, c) ← Update ParseDuration m msg;
      '(m2, cs) ← feed m1 msgs;
      Some (m2, match c with Some c => c :: cs | None => cs end)
  end.

(** The health path of the target [idx] is configured, as [Update] tests
    it after a successful ping. *)
Definition healthConfigured (m : model) (idx : Z) (he : string) : Prop :=
  index (healthEndpoint m) idx = Some he /\ he <> "".

Definition healthNotConfigured (m : model) (idx : Z) : Prop :=
  len (healthEndpoint m) <= idx \/ index (healthEndpoint m) idx = Some "".

(** [initialModel], declared beside the struct: the time zone starts as
    [time.Local] and [make] gives every target an empty ping text, an empty
    error and a nil health object.  [ctx] is the state of the context
    handed in (cancelled or not) and [cancel] tells whether the cancel
    function handed in is non-nil. *)
Definition initialModel (websites : list string) (schedule : string)
    (healthEndpoints : list string) (ctx cancel : bool) : model :=
  {| websites := websites;
     schedule := schedule;
     timezone := Some Local;
     healthEndpoint := healthEndpoints;
     lastPing := replicate (length websites) "";
     lastError := replicate (length websites) "";
     lastHealthGeneric := replicate (length websites) None;
     quit := false;
     cancelled := ctx;
     cancel := cancel |}.

(** The state a successful ping leaves. *)
Definition afterPing (m : model) (idx : Z) (r : string) : model :=
  set_lastError Any
    (set_lastPing Any m (<[Z.to_nat idx := r]> (lastPing m)))
    (<[Z.to_nat idx := ""]> (lastError m)).

End Loop.

Arguments wf {Any} m.
Arguments target {Any} m idx.
Arguments msgIndex {Any} msg.
Arguments feed {Any} ParseDuration m msgs.
Arguments healthConfigured {Any} m idx he.
Arguments healthNotConfigured {Any} m idx.
Arguments afterPing {Any} m idx r.
Arguments initialModel {Any} Local websites schedule healthEndpoints ctx cancel.

(** ** Worlds *)

Section Worlds.

Variable Any : Type.

(** A computation that asks the world for nothing but the time and the
    order of the entries of a map. *)
Inductive readsOnly {A} : IO Any A -> Prop :=
| readsOnly_Ret a : readsOnly (Ret a)
| readsOnly_Crash : readsOnly Crash
| readsOnly_Now k : (forall t, readsOnly (k t)) -> readsOnly (Vis NowE k)
| readsOnly_Range data k :
    (forall l, readsOnly (k l)) -> readsOnly (Vis (RangeE data) k).

(** Two worlds, related by [R], that tell the same time and visit maps in
    the same order, now and ever after. *)
Definition sameReads {W1 W2}
    (h1 : forall X, Event Any X -> W1 -> X * W1)
    (h2 : forall X, Event Any X -> W2 -> X * W2)
    (R : W1 -> W2 -> Prop) : Prop :=
  forall w1 w2, R w1 w2 ->
    (fst (h1 _ NowE w1) = fst (h2 _ NowE w2) /\
     R (snd (h1 _ NowE w1)) (snd (h2 _ NowE w2))) /\
    (forall data,
       fst (h1 _ (RangeE data) w1) = fst (h2 _ (RangeE data) w2) /\
       R (snd (h1 _ (RangeE data) w1)) (snd (h2 _ (RangeE data) w2))).

(** A world whose clock shows [clock] and then runs on by [tick_]
    nanoseconds at each reading, where every connection is accepted, every
    request is answered with the status [code] and the body [body], and
    maps are visited in the order of their keys. *)
Definition scripted (tick_ : Z) (code : Z) (body : string)
  : forall X, Event Any X -> Time -> X * Time :=
  fun X e =>
    match e in Event _ X return Time -> X * Time with
    | NowE => fun clock => (clock, clock + tick_)
    | SleepE d => fun clock => (tt, clock + d)
    | DialE _ _ _ => fun clock => (inl 0%nat, clock)
    | CloseConnE _ => fun clock => (tt, clock)
    | NewRequestE method url =>
        fun clock => (inl {| Method := method; URL := url |}, clock)
    | DoE _ => fun clock => (inl {| StatusCode := code; Body := 0%nat |}, clock)
    | ReadAllE _ => fun clock => (inl body, clock)
    | CloseBodyE _ => fun clock => (tt, clock)
    | RangeE data => fun clock => (map_to_list data, clock)
    end.

End Worlds.

Arguments readsOnly {Any A} p.
Arguments sameReads {Any W1 W2} h1 h2 R.
Arguments scripted {Any} tick_ code body X e.

(** ** A reference platform

    Executable stand-ins for the library functions the sections above take
    as variables.  Each covers a fragment of what the library accepts, and
    serves to run the program on concrete inputs. *)

Module Reference.

(** The scalar values of a decoded JSON object, numbers being integers. *)
Inductive Scalar : Type :=
| SNull
| SBool (b : bool)
| SNumber (n : Z)
| SString (s : string).

Definition asString (v : Scalar) : option string :=
  match v with
  | SString s => Some s
  | _ => None
  end.

Definition sprintV (v : Scalar) : string :=
  match v with
  | SNull => "<nil>"
  | SBool true => "true"
  | SBool false => "false"
  | SNumber n => itoa n
  | SString s => s
  end.

Definition UTC : Location := fun _ => ("UTC", 0).

Definition quote (s : string) : string := dq +:+ s +:+ dq.

Definition isDigit (c : ascii) : bool :=
  let n := nat_of_ascii c in ((48 <=? n) && (n <=? 57))%nat.

Definition digitValue (c : ascii) : Z := Z.of_nat (nat_of_ascii c) - 48.

(** The leading digits of [s] as a number, and what follows them. *)
Fixpoint leadingInt (acc : Z) (s : string) : Z * string :=
  match s with
  | String c r => if isDigit c then leadingInt (10 * acc + digitValue c) r
                  else (acc, s)
  | EmptyString => (acc, s)
  end.

Definition unitOf (u : string) : option Z :=
  if decide (u = "ns") then Some 1
  else if decide (u = "us") then Some 1000
  else if decide (u = "ms") then Some 1000000
  else if decide (u = "s") then Some Second
  else if decide (u = "m") then Some (60 * Second)
  else if decide (u = "h") then Some (3600 * Second)
  else None.

(** Durations written as one unsigned integer and one unit, or ["0"]. *)
Definition ParseDuration (s : string) : Duration + string :=
  if decide (s = "0") then inl 0
  else
    match s with
    | String c _ =>
        if isDigit c then
          let '(v, u) := leadingInt 0 s in
          match unitOf u with
          | Some unit_ =>
              if v * unit_ <=? 9223372036854775807 then inl (v * unit_)
              else inr ("time: invalid duration " +:+ quote s)
          | None => inr ("time: unknown unit in duration " +:+ quote s)
          end
        else inr ("time: invalid duration " +:+ quote s)
    | EmptyString => inr ("time: invalid duration " +:+ quote s)
    end.

(** Dotted-quad IPv4 literals. *)
Definition isOctet (s : string) : bool :=
  match s with
  | EmptyString => false
  | String c r =>
      forallb isDigit (list_ascii_of_string s) &&
      (String.length s <=? 3)%nat &&
      (fst (leadingInt 0 s) <=? 255) &&
      (negb (Ascii.eqb c "0") || (String.length s =? 1)%nat)
  end.

Definition ParseIP (host : string) : bool :=
  let parts := splitByte "." host in
  (length parts =? 4)%nat && forallb isOctet parts.

Definition LoadLocation (name : string) : Location + string :=
  if decide (name = "UTC") then inl UTC
  else inr ("unknown time zone " +:+ name).

(** The states of a reader of arrays of strings without escapes. *)
Inductive arrayState : Type :=
| AStart
| AOpen
| AInString (cur : string)
| AAfterString
| AAfterComma
| AClosed.

Fixpoint scanArray (st : arrayState) (acc : list string) (s : string)
  : option (list string) :=
  match s with
  | EmptyString =>
      match st with
      | AClosed => Some acc
      | _ => None
      end
  | String c r =>
      match st with
      | AStart => if Ascii.eqb c "[" then scanArray AOpen acc r else None
      | AOpen =>
          if Ascii.eqb c "]" then scanArray AClosed acc r
          else if Ascii.eqb c (ascii_of_nat 34) then scanArray (AInString "") acc r
          else None
      | AInString cur =>
          if Ascii.eqb c (ascii_of_nat 34)
          then scanArray AAfterString (acc ++ [cur]) r
          else if Ascii.eqb c (ascii_of_nat 92) then None
          else scanArray (AInString (cur +:+ String c "")) acc r
      | AAfterString =>
          if Ascii.eqb c "]" then scanArray AClosed acc r
          else if Ascii.eqb c "," then scanArray AAfterComma acc r
          else None
      | AAfterComma =>
          if Ascii.eqb c (ascii_of_nat 34) then scanArray (AInString "") acc r
          else None
      | AClosed => None
      end
  end.

(** Arrays of strings, and [null], which [encoding/json] decodes into a
    slice by leaving it nil, without an error. *)
Definition unmarshalStrings (s : string) : list string + string :=
  if decide (s = "null") then inl []
  else match scanArray AStart [] s with
       | Some l => inl l
       | None => inr "json: cannot unmarshal into Go value of type []string"
       end.

(** Objects: the empty object, and [null], which [encoding/json] decodes
    into a map by leaving it nil, without an error. *)
Definition unmarshalObject (s : string) : option (gmap string Scalar) + string :=
  if decide (s = "null") then inl None
  else if decide (s = "{}") then inl (Some ∅)
  else inr "json: cannot unmarshal into Go value of type map[string]interface {}".

(** A renderer for a terminal without colours and for texts of one line:
    the paddings are spaces and empty lines, the margins empty lines. *)
Definition Render (st : Style) (s : string) : string :=
  Repeat nl (Z.to_nat (marginTop st + paddingTop st)) +:+
  Repeat " " (Z.to_nat (paddingLeft st)) +:+ s +:+
  Repeat " " (Z.to_nat (paddingRight st)) +:+
  Repeat nl (Z.to_nat (paddingBottom st + marginBottom st)).

Definition parseRFC3339 (s : string) : option Time := None.

(** A state with one website, reached after a successful ping. *)
Definition pinged : model Scalar :=
  {| websites := ["example.com"];
     schedule := "5s";
     healthEndpoint := [""];
     lastPing := ["Ping to example.com:"];
     lastError := [""];
     lastHealthGeneric := [None];
     timezone := Some UTC;
     quit := false;
     cancel := true;
     cancelled := false |}.

(** A state with two websites, the first with a health path, where the
    first was found healthy and nothing is known of the second. *)
Definition watching : model Scalar :=
  {| websites := ["example.com"; "example.org"];
     schedule := "5s";
     healthEndpoint := ["/health"; ""];
     lastPing := ["Ping to example.com:"; ""];
     lastError := [""; ""];
     lastHealthGeneric := [Some {[ "status" := SString "ok" ]}; None];
     timezone := Some UTC;
     quit := false;
     cancel := true;
     cancelled := false |}.

(** An environment, given by its four variables. *)
Definition environment (website sched tz health : string) : string -> string :=
  fun name =>
    if decide (name = "PING_WEBSITE") then website
    else if decide (name = "PING_SCHEDULE") then sched
    else if decide (name = "TIMEZONE") then tz
    else if decide (name = "HEALTH_ENDPOINT") then health
    else "".

(** The array [["example.com","example.org"]]. *)
Definition twoWebsites : string :=
  "[" +:+ dq +:+ "example.com" +:+ dq +:+ "," +:+ dq +:+ "example.org" +:+ dq +:+ "]".

(** The array holding one empty string. *)
Definition emptyEntry : string := "[" +:+ dq +:+ dq +:+ "]".

End Reference.

(** ** The one-website program

    [src/main.go] is the same program for a single website: the state holds
    one website, one health path and one slot for each outcome, and the
    messages carry no index. *)

Module Single.

Inductive Cmd : Type :=
| PingClosure (website : string)
| HealthClosure (website healthEndpoint : string)
| SleepClosure (dur : Duration)
| Quit.

Inductive Startup : Type :=
| Exit (code : Z) (stdout : string)
| Run (website schedule healthEndpoint : string) (loc : Location).

Section Program.

Variable Any : Type.
Variable ParseDuration : string -> Duration + string.
Variable unmarshalObject : string -> option (gmap string Any) + string.
Variable Render : Style -> string -> string.
Variable asString : Any -> option string.
Variable sprintV : Any -> string.
Variable parseRFC3339 : string -> option Time.
Variable Local : Location.
Variable ParseIP : string -> bool.
Variable LoadLocation : string -> Location + string.
Variable quote : string -> string.

Local Abbreviation IO := (IO Any).
#[local] Existing Instances IO_ret IO_bind.

Inductive Msg : Type :=
| tickMsg (t : Time)
| pingResult (result_ : string) (err : error)
| healthResultGeneric (data : option (gmap string Any)) (err : error)
| KeyMsg (key : string)
| QuitMsg
| OtherMsg.

(** The struct [model] of the program for one website, declared in
    [src/.github/workflows/codeql.yml]; the context and the cancel function
    are kept as for the other program. *)
Record model : Type := Model {
  website : string;
  schedule : string;
  healthEndpoint : string;
  lastPing : string;
  lastError : string;
  lastHealthGeneric : option (gmap string Any);
  timezone : option Location;
  quit : bool;
  cancel : bool;
  cancelled : bool
}.

(** [initialModel] of the program for one website; [main] sets the time
    zone and the health path afterwards. *)
Definition initialModel (website schedule : string) (ctx cancel : bool) : model :=
  {| website := website;
     schedule := schedule;
     timezone := Some Local;
     healthEndpoint := "";
     lastPing := "";
     lastError := "";
     lastHealthGeneric := None;
     quit := false;
     cancelled := ctx;
     cancel := cancel |}.

Definition schedulePing (schedule : string) : Cmd :=
  SleepClosure (match ParseDuration schedule with
                | inl dur => dur
                | inr _ => 10 * Second
                end).

Definition Init (m : model) : Cmd := PingClosure (website m).

Definition Update (m : model) (msg : Msg) : model * option Cmd :=
  match msg with
  | tickMsg _ => (m, Some (PingClosure (website m)))
  | pingResult _ (Some err) =>
      let m := Model (website m) (schedule m) (healthEndpoint m) "" err None
                     (timezone m) (quit m) (cancel m) (cancelled m) in
      (m, Some (schedulePing (schedule m)))
  | pingResult r None =>
      let m := Model (website m) (schedule m) (healthEndpoint m) r ""
                     (lastHealthGeneric m) (timezone m) (quit m) (cancel m)
                     (cancelled m) in
      if decide (healthEndpoint m <> "")
      then (m, Some (HealthClosure (website m) (healthEndpoint m)))
      else (m, Some (schedulePing (schedule m)))
  | healthResultGeneric data None =>
      let m := Model (website m) (schedule m) (healthEndpoint m) (lastPing m)
                     (lastError m) data (timezone m) (quit m) (cancel m)
                     (cancelled m) in
      (m, Some (schedulePing (schedule m)))
  | healthResultGeneric data (Some err) =>
      let m := Model (website m) (schedule m) (healthEndpoint m) (lastPing m)
                     err None (timezone m) (quit m) (cancel m) (cancelled m) in
      (m, Some (schedulePing (schedule m)))
  | KeyMsg key =>
      if decide (key = "ctrl+c" \/ key = "q")
      then (Model (website m) (schedule m) (healthEndpoint m) (lastPing m)
                  (lastError m) (lastHealthGeneric m) (timezone m) true
                  (cancel m) (if cancel m then true else cancelled m),
            Some Quit)
      else (m, None)
  | QuitMsg | OtherMsg => (m, None)
  end.

Definition healthBody (website healthEndpoint : string) : IO Msg :=
  if decide (healthEndpoint = "") then
    Ret (healthResultGeneric None (Some "health endpoint not configured"))
  else
    let url := "https://" +:+ website +:+ healthEndpoint in
    req ← trigger (NewRequestE "GET" url);
    match req with
    | inr err => Ret (healthResultGeneric None (Some err))
    | inl req =>
        resp ← trigger (DoE req);
        match resp with
        | inr err => Ret (healthResultGeneric None (Some err))
        | inl resp =>
            body ← trigger (ReadAllE (Body resp));
            r ← match body with
                | inr err => Ret (healthResultGeneric None (Some err))
                | inl body =>
                    if decide (StatusCode resp < 200 \/ StatusCode resp >= 300)
                    then Ret (healthResultGeneric None
                           (Some ("health endpoint HTTP " +:+
                                  itoa (StatusCode resp) +:+ ": " +:+ body)))
                    else
                      match unmarshalObject body with
                      | inr err =>
                          Ret (healthResultGeneric None
                                 (Some ("invalid JSON from health endpoint: "
                                        +:+ err +:+ nl +:+ "Body: " +:+ body)))
                      | inl data => Ret (healthResultGeneric data None)
                      end
                end;
            _ ← trigger (CloseBodyE (Body resp));
            Ret r
        end
    end.

Definition View (m : model) : IO string :=
  let b := Render headerStyle " Vivteno - Website Health Monitor " in
  let b := b +:+ nl +:+ nl in
  let b := b +:+ Render sectionTitle "Website:" +:+ " " +:+
           Render infoStyle (website m) +:+ nl in
  let b := b +:+ Render sectionTitle "Schedule:" +:+ " " +:+
           Render infoStyle (schedule m) +:+ nl in
  b ← (if decide (lastPing m <> "") then
         now ← trigger NowE;
         let loc := match timezone m with
                    | Some tz => tz
                    | None => Local
                    end in
         Ret (b +:+ nl +:+ Render sectionTitle "Last checked:" +:+ " " +:+
              Render infoStyle (FormatDisplay loc now) +:+ nl +:+
              renderPingLines Render (splitByte (ascii_of_nat 10) (lastPing m))
              +:+ nl)
       else Ret b);
  b ← (if decide (healthEndpoint m <> "") then
         match lastHealthGeneric m with
         | Some data =>
             s ← renderHealthSection Render asString sprintV parseRFC3339
                   data (timezone m);
             Ret (b +:+ nl +:+ s +:+ nl)
         | None => Ret b
         end
       else Ret b);
  let b := if decide (lastError m <> "")
           then b +:+ nl +:+ Render errorStyle ("FAILED: " +:+ lastError m) +:+ nl
           else b in
  Ret (b +:+ nl +:+ Render footerStyle "Press q or Ctrl+C to quit.").

Definition main (getenv : string -> string) : Startup :=
  let website := getenv "PING_WEBSITE" in
  let schedule := getenv "PING_SCHEDULE" in
  let timezone := getenv "TIMEZONE" in
  let healthEndpoint := getenv "HEALTH_ENDPOINT" in
  if decide (website = "") then Exit 1 ("PING_WEBSITE not set in .env" +:+ nl)
  else if negb (isValidHostname ParseIP website)
  then Exit 1 ("Invalid PING_WEBSITE: " +:+ quote website +:+ nl)
  else
    let schedule := if decide (schedule = "") then "10s" else schedule in
    if negb (isValidSchedule ParseDuration schedule)
    then Exit 1 ("Invalid PING_SCHEDULE: " +:+ quote schedule +:+ nl)
    else
      match (if decide (timezone <> "") then LoadLocation timezone
             else inl Local) with
      | inr _ => Exit 1 ("Invalid TIMEZONE: " +:+ quote timezone +:+ nl)
      | inl loc => Run website schedule healthEndpoint loc
      end.

End Program.

Arguments tickMsg {Any} t.
Arguments pingResult {Any} result_ err.
Arguments healthResultGeneric {Any} data err.
Arguments KeyMsg {Any} key.
Arguments website {Any} m.
Arguments schedule {Any} m.
Arguments healthEndpoint {Any} m.
Arguments lastPing {Any} m.
Arguments lastError {Any} m.
Arguments lastHealthGeneric {Any} m.
Arguments timezone {Any} m.
Arguments Init {Any} m.
Arguments Update {Any} ParseDuration m msg.
Arguments healthBody {Any} unmarshalObject website healthEndpoint.
Arguments View {Any} Render asString sprintV parseRFC3339 Local m.

(** A state reached after a successful ping and a successful health check. *)
Definition healthy : model Reference.Scalar :=
  {| website := "example.com";
     schedule := "5s";
     healthEndpoint := "/health";
     lastPing := "Ping to example.com:";
     lastError := "";
     lastHealthGeneric := Some {[ "status" := Reference.SString "ok" ]};
     timezone := Some Reference.UTC;
     quit := false;
     cancel := true;
     cancelled := false |}.

End Single.

(** ** One website, seen by both programs *)

Module Projection.

Section Project.

Variable Any : Type.

(** The state of the one-website program that shows what a state of the
    program for several websites holds for its first website. *)
Definition project (m : model Any) : Single.model Any :=
  {| Single.website := default "" (websites m !! 0%nat);
     Single.schedule := schedule m;
     Single.healthEndpoint := default "" (healthEndpoint m !! 0%nat);
     Single.lastPing := default "" (lastPing m !! 0%nat);
     Single.lastError := default "" (lastError m !! 0%nat);
     Single.lastHealthGeneric := default None (lastHealthGeneric m !! 0%nat);
     Single.timezone := timezone m;
     Single.quit := quit m;
     Single.cancel := cancel m;
     Single.cancelled := cancelled m |}.

(** A message without its index. *)
Definition projectMsg (msg : Msg Any) : Single.Msg Any :=
  match msg with
  | tickMsgWithIndex t _ => Single.tickMsg t
  | pingResultWithIndex r e _ => Single.pingResult r e
  | healthResultGenericWithIndex d e _ => Single.healthResultGeneric d e
  | KeyMsg key => Single.KeyMsg key
  | QuitMsg => Single.QuitMsg Any
  | OtherMsg => Single.OtherMsg Any
  end.

(** A command without its index; a batch has no counterpart. *)
Definition projectCmd (c : Cmd) : option Single.Cmd :=
  match c with
  | PingClosure w _ => Some (Single.PingClosure w)
  | HealthClosure w he _ => Some (Single.HealthClosure w he)
  | SleepClosure d _ => Some (Single.SleepClosure d)
  | Quit => Some Single.Quit
  | Batch _ => None
  end.

(** The message is about the first website, or about none. *)
Definition aboutFirst (msg : Msg Any) : Prop :=
  msgIndex msg = Some 0 \/ msgIndex msg = None.

End Project.

Arguments project {Any} m.
Arguments projectMsg {Any} msg.
Arguments aboutFirst {Any} msg.

End Projection.

(** ** More sample inputs *)

Module Samples.

(** The state [Reference.watching] with a schedule that does not parse. *)
Definition unscheduled : model Reference.Scalar :=
  {| websites := ["example.com"; "example.org"];
     schedule := "soon";
     healthEndpoint := ["/health"; ""];
     lastPing := ["Ping to example.com:"; ""];
     lastError := [""; "i/o timeout"];
     lastHealthGeneric := [Some {[ "status" := Reference.SString "ok" ]}; None];
     timezone := Some Reference.UTC;
     quit := false;
     cancel := true;
     cancelled := false |}.

(** The state at start-up, for two websites. *)
Definition fresh : model Reference.Scalar :=
  initialModel Reference.UTC ["example.com"; "example.org"] "5s"
    ["/health"; ""] false true.

(** The array [["/health","/status"]]. *)
Definition twoPaths : string :=
  "[" +:+ dq +:+ "/health" +:+ dq +:+ "," +:+ dq +:+ "/status" +:+ dq +:+ "]".

(** A tick for the second website, then the key [q]. *)
Definition tickThenQuit : list (Msg Reference.Scalar) :=
  [tickMsgWithIndex 0 1; KeyMsg "q"].

(** A failed ping of the first website, then a tick for it. *)
Definition failThenTick : list (Msg Reference.Scalar) :=
  [pingResultWithIndex "" (Some "i/o timeout") 0; tickMsgWithIndex 0 0].

(** A world where every request is answered with the status [code] and
    the body is cut off while it is read. *)
Definition truncated (code : Z)
  : forall X, Event Reference.Scalar X -> Time -> X * Time :=
  fun X e =>
    match e in Event _ X return Time -> X * Time with
    | NowE => fun clock => (clock, clock)
    | SleepE d => fun clock => (tt, clock + d)
    | DialE _ _ _ => fun clock => (inl 0%nat, clock)
    | CloseConnE _ => fun clock => (tt, clock)
    | NewRequestE method url =>
        fun clock => (inl {| Method := method; URL := url |}, clock)
    | DoE _ => fun clock => (inl {| StatusCode := code; Body := 0%nat |}, clock)
    | ReadAllE _ => fun clock => (inr "unexpected EOF", clock)
    | CloseBodyE _ => fun clock => (tt, clock)
    | RangeE data => fun clock => (map_to_list data, clock)
    end.

(** A world without network: every dial and every request sent fails. *)
Definition offline
  : forall X, Event Reference.Scalar X -> Time -> X * Time :=
  fun X e =>
    match e in Event _ X return Time -> X * Time with
    | NowE => fun clock => (clock, clock)
    | SleepE d => fun clock => (tt, clock + d)
    | DialE _ _ _ => fun clock => (inr "connection refused", clock)
    | CloseConnE _ => fun clock => (tt, clock)
    | NewRequestE method url =>
        fun clock => (inl {| Method := method; URL := url |}, clock)
    | DoE _ => fun clock => (inr "connection refused", clock)
    | ReadAllE _ => fun clock => (inr "unexpected EOF", clock)
    | CloseBodyE _ => fun clock => (tt, clock)
    | RangeE data => fun clock => (map_to_list data, clock)
    end.

End Samples.

(** ** The shape of a JSON text *)

(** The white space of JSON: space, tab, line feed and carriage return. *)
Definition isJSONSpace (c : ascii) : bool :=
  let n := nat_of_ascii c in ((n =? 32) || (n =? 9) || (n =? 10) || (n =? 13))%nat.

(** The first byte of [s] after its leading white space is [c]; a JSON
    object starts with a left brace and a JSON array with a left bracket,
    so a text that starts otherwise is neither. *)
Fixpoint startsWith (c : ascii) (s : string) : bool :=
  match s with
  | EmptyString => false
  | String d r => if isJSONSpace d then startsWith c r else Ascii.eqb c d
  end.

Definition startsObject (s : string) : bool := startsWith "{" s.
Definition startsArray (s : string) : bool := startsWith "[" s.

(** ** Predicates on computations, texts and regular expressions *)

Section Posts.

Variable Any : Type.

(** In every world the computation returns, without a panic, a value that
    satisfies [P]. *)
Inductive post {A} (P : A -> Prop) : IO Any A -> Prop :=
| post_Ret a : P a -> post P (Ret a)
| post_Vis X (e : Event Any X) k : (forall x, post P (k x)) -> post P (Vis e k).

(** The computation asks nothing of the world. *)
Inductive silent {A} : IO Any A -> Prop :=
| silent_Ret a : silent (Ret a)
| silent_Crash : silent Crash.

End Posts.

Arguments post {Any A} P p.
Arguments silent {Any A} p.

(** The text [s] is [b] with something appended. *)
Definition extends (b s : string) : Prop := exists x, s = b +:+ x.

(** The text [x] occurs in [s]. *)
Definition contains (x s : string) : Prop := exists p q, s = p +:+ x +:+ q.

(** The strings a regular expression denotes. *)
Inductive lang : regex -> string -> Prop :=
| lang_Eps : lang REps ""
| lang_Class p c : p c = true -> lang (RClass p) (String c "")
| lang_Seq r1 r2 s1 s2 :
    lang r1 s1 -> lang r2 s2 -> lang (RSeq r1 r2) (s1 +:+ s2)
| lang_AltL r1 r2 s : lang r1 s -> lang (RAlt r1 r2) s
| lang_AltR r1 r2 s : lang r2 s -> lang (RAlt r1 r2) s
| lang_Star0 r : lang (RStar r) ""
| lang_StarS r s1 s2 :
    lang r s1 -> lang (RStar r) s2 -> lang (RStar r) (s1 +:+ s2).

(** A label of a host name: one or more letters, digits and hyphens. *)
Definition okLabel (l : string) : Prop :=
  l <> "" /\ Forall (fun c => hostClass c = true) (list_ascii_of_string l).

(** ** Slices: reading after writing *)

Lemma assign_Some {A} (s : list A) (i : Z) (v : A) :
  0 <= i < len s -> assign s i v = Some (<[Z.to_nat i := v]> s).
Proof.
  intros Hi. unfold assign, len in *. destruct (decide _); [reflexivity | lia].
Qed.

Lemma assign_inv {A} (s s' : list A) (i : Z) (v : A) :
  assign s i v = Some s' -> 0 <= i < len s /\ s' = <[Z.to_nat i := v]> s.
Proof.
  unfold assign, len. destruct (decide _); [|discriminate].
  intros [= <-]. split; [assumption | reflexivity].
Qed.

Lemma index_insert_eq {A} (s : list A) (i : Z) (v : A) :
  0 <= i < len s -> index (<[Z.to_nat i := v]> s) i = Some v.
Proof.
  intros Hi. unfold index, len in *. destruct (decide _); [|lia].
  apply list_lookup_insert_eq. lia.
Qed.

Lemma index_insert_ne {A} (s : list A) (i j : Z) (v : A) :
  0 <= i -> 0 <= j -> i <> j ->
  index (<[Z.to_nat i := v]> s) j = index s j.
Proof.
  intros Hi Hj Hne. unfold index. destruct (decide _); [|reflexivity].
  apply list_lookup_insert_ne. lia.
Qed.

Lemma index_in_range {A} (s : list A) (i : Z) :
  0 <= i < len s -> exists x, index s i = Some x.
Proof.
  intros Hi. unfold index, len in *. destruct (decide _); [|lia].
  destruct (lookup_lt_is_Some_2 s (Z.to_nat i)) as [x Hx]; [lia|].
  exists x. exact Hx.
Qed.

Lemma index_Some_range {A} (s : list A) (i : Z) (x : A) :
  index s i = Some x -> 0 <= i < len s.
Proof.
  unfold index, len. destruct (decide _); [|discriminate].
  intros H%lookup_lt_Some. lia.
Qed.

Lemma len_insert {A} (s : list A) (n : nat) (v : A) :
  len (<[n := v]> s) = len s.
Proof. unfold len. now rewrite length_insert. Qed.

(** ** What [Update] does to the state *)

Section UpdateFacts.

Variable Any : Type.
Variable ParseDuration : string -> Duration + string.

Local Abbreviation model := (model Any).
Local Abbreviation Msg := (Msg Any).

(** In a well-formed state every per-target slice can be written at the
    index of a target. *)
Lemma wf_slots (m : model) (idx : Z) :
  wf m -> target m idx ->
  0 <= idx < len (lastPing m) /\
  0 <= idx < len (lastError m) /\
  0 <= idx < len (lastHealthGeneric m).
Proof.
  unfold wf, target, len. intros (Hp & He & Hh) Hi.
  rewrite Hp, He, Hh. auto.
Qed.

(** The three writes of a failed ping. *)
Lemma Update_ping_failure (m : model) (idx : Z) (r err : string) :
  wf m -> target m idx ->
  Update ParseDuration m (pingResultWithIndex r (Some err) idx) =
  Some (set_lastHealthGeneric Any
          (set_lastPing Any
             (set_lastError Any m (<[Z.to_nat idx := err]> (lastError m)))
             (<[Z.to_nat idx := ""]> (lastPing m)))
          (<[Z.to_nat idx := None]> (lastHealthGeneric m)),
        Some (schedulePing ParseDuration (schedule m) idx)).
Proof.
  intros Hwf Hi. destruct (wf_slots m idx Hwf Hi) as (Hp & He & Hh).
  cbn [Update].
  rewrite (assign_Some _ _ _ He), (assign_Some _ _ _ Hp), (assign_Some _ _ _ Hh).
  reflexivity.
Qed.

(** The two writes of a failed health check. *)
Lemma Update_health_failure (m : model) (idx : Z)
    (data : option (gmap string Any)) (err : string) :
  wf m -> target m idx ->
  Update ParseDuration m (healthResultGenericWithIndex data (Some err) idx) =
  Some (set_lastError Any
          (set_lastHealthGeneric Any m
             (<[Z.to_nat idx := None]> (lastHealthGeneric m)))
          (<[Z.to_nat idx := err]> (lastError m)),
        Some (schedulePing ParseDuration (schedule m) idx)).
Proof.
  intros Hwf Hi. destruct (wf_slots m idx Hwf Hi) as (Hp & He & Hh).
  cbn [Update].
  rewrite (assign_Some _ _ _ Hh), (assign_Some _ _ _ He).
  reflexivity.
Qed.

(** The write of a successful health check. *)
Lemma Update_health_success (m : model) (idx : Z)
    (data : option (gmap string Any)) :
  wf m -> target m idx ->
  Update ParseDuration m (healthResultGenericWithIndex data None idx) =
  Some (set_lastHealthGeneric Any m
          (<[Z.to_nat idx := data]> (lastHealthGeneric m)),
        Some (schedulePing ParseDuration (schedule m) idx)).
Proof.
  intros Hwf Hi. destruct (wf_slots m idx Hwf Hi) as (Hp & He & Hh).
  cbn [Update].
  rewrite (assign_Some _ _ _ Hh).
  reflexivity.
Qed.

(** A timer tick starts the ping of its website. *)
Lemma Update_tick (m : model) (idx : Z) (t : Time) (website : string) :
  index (websites m) idx = Some website ->
  Update ParseDuration m (tickMsgWithIndex t idx) =
  Some (m, Some (pingWebsiteCmdWithContext website idx)).
Proof. intros Hw. cbn [Update]. rewrite Hw. reflexivity. Qed.

(** A successful ping of a target with a health path starts its health
    check. *)
Lemma Update_ping_success_health (m : model) (idx : Z) (r website he : string) :
  wf m -> target m idx ->
  index (websites m) idx = Some website ->
  healthConfigured m idx he ->
  Update ParseDuration m (pingResultWithIndex r None idx) =
  Some (afterPing m idx r, Some (fetchHealthCmdWithContext website he idx)).
Proof.
  intros Hwf Hi Hw [Hhe Hne].
  destruct (wf_slots m idx Hwf Hi) as (Hp & He & Hh).
  cbn [Update].
  rewrite (assign_Some _ _ _ Hp), (assign_Some _ _ _ He).
  cbn. apply index_Some_range in Hhe as Hr.
  destruct (decide _) as [_|Hn]; [|lia].
  rewrite Hhe. cbn. destruct (decide _) as [_|Hn]; [|contradiction].
  rewrite Hw. cbn. reflexivity.
Qed.

(** A successful ping of a target without health path starts the delay. *)
Lemma Update_ping_success_plain (m : model) (idx : Z) (r : string) :
  wf m -> target m idx ->
  healthNotConfigured m idx ->
  Update ParseDuration m (pingResultWithIndex r None idx) =
  Some (afterPing m idx r, Some (schedulePing ParseDuration (schedule m) idx)).
Proof.
  intros Hwf Hi Hnc.
  destruct (wf_slots m idx Hwf Hi) as (Hp & He & Hh).
  cbn [Update].
  rewrite (assign_Some _ _ _ Hp), (assign_Some _ _ _ He).
  cbn. destruct Hnc as [Hshort|Hempty].
  - destruct (decide _) as [Hn|_]; [lia | reflexivity].
  - apply index_Some_range in Hempty as Hr.
    destruct (decide _) as [_|Hn]; [|lia].
    rewrite Hempty. cbn. destruct (decide _) as [Hn|_]; [contradiction | reflexivity].
Qed.

(** A target either has a health path or has none. *)
Lemma health_path_cases (m : model) (idx : Z) :
  0 <= idx ->
  healthNotConfigured m idx \/ exists he, healthConfigured m idx he.
Proof.
  intros Hi. destruct (decide (len (healthEndpoint m) <= idx)) as [Hs|Hs].
  - left. left. exact Hs.
  - destruct (index_in_range (healthEndpoint m) idx) as [he Hhe]; [lia|].
    destruct (decide (he = "")) as [->|Hne].
    + left. right. exact Hhe.
    + right. exists he. split; assumption.
Qed.

End UpdateFacts.

(** ** The controller *)

(** Opening a chain of index expressions that did not panic. *)
Ltac crack H :=
  repeat match type of H with
         | (?o ≫= _) = Some _ =>
             let E := fresh "E" in
             destruct o eqn:E; cbn [mbind option_bind] in H; [|discriminate H]
         | (if decide ?P then _ else _) = Some _ =>
             destruct (decide P); cbn [mbind option_bind] in H
         | Some _ = Some _ => injection H as <- <-
         end.

Section Controller.

Variable Any : Type.
Variable ParseDuration : string -> Duration + string.

Local Abbreviation model := (model Any).
Local Abbreviation Msg := (Msg Any).

(** [Update] never touches the configuration, keeps the slices at their
    lengths, and every delay it schedules is the one [schedulePing]
    computes from the schedule of the state. *)
Lemma Update_frame (m m' : model) (msg : Msg) (c : option Cmd) :
  Update ParseDuration m msg = Some (m', c) ->
  schedule m' = schedule m /\
  websites m' = websites m /\
  healthEndpoint m' = healthEndpoint m /\
  (wf m -> wf m') /\
  (forall dur i, c = Some (SleepClosure dur i) ->
     dur = fst (scheduleDuration ParseDuration (schedule m))).
Proof.
  unfold wf.
  destruct msg as [t i|r [err|] i|data [err|] i|key| |]; cbn [Update]; intros H;
    crack H;
    repeat match goal with
           | H : assign _ _ _ = Some _ |- _ =>
               apply assign_inv in H; destruct H as [? ->]
           end;
    cbn; rewrite ?length_insert;
    (split; [reflexivity|]); (split; [reflexivity|]); (split; [reflexivity|]);
    (split; [tauto|]);
    intros dur j; unfold fetchHealthCmdWithContext, pingWebsiteCmdWithContext;
    try discriminate; intros [= <- <-]; reflexivity.
Qed.

(** C1. For every target index, applying a ping failure to a well-formed
    state succeeds, and in the state it returns the health outcome of that
    target is nil, its last error is the text of the error and its ping
    text is empty. *)
Theorem ping_failure_clears_health (m : model) (idx : Z) (r err : string) :
  wf m -> target m idx ->
  exists m' c,
    Update ParseDuration m (pingResultWithIndex r (Some err) idx) = Some (m', c) /\
    index (lastHealthGeneric m') idx = Some None /\
    index (lastError m') idx = Some err /\
    index (lastPing m') idx = Some "".
Proof.
  intros Hwf Hi. destruct (wf_slots Any m idx Hwf Hi) as (Hp & He & Hh).
  eexists _, _. split; [apply Update_ping_failure; assumption|].
  cbn. repeat split; apply index_insert_eq; assumption.
Qed.

(** C4. For every target, applying a health-check failure leaves the whole
    slice of ping texts as it was; it stores the text of the error as the
    last error of the target and makes its health outcome nil. *)
Theorem health_failure_keeps_ping (m : model) (idx : Z)
    (data : option (gmap string Any)) (err : string) :
  wf m -> target m idx ->
  exists m' c,
    Update ParseDuration m (healthResultGenericWithIndex data (Some err) idx)
      = Some (m', c) /\
    lastPing m' = lastPing m /\
    index (lastError m') idx = Some err /\
    index (lastHealthGeneric m') idx = Some None.
Proof.
  intros Hwf Hi. destruct (wf_slots Any m idx Hwf Hi) as (Hp & He & Hh).
  eexists _, _. split; [apply Update_health_failure; assumption|].
  cbn. repeat split; apply index_insert_eq; assumption.
Qed.

(** C2. For every per-target message (tick, ping result, health result)
    about a target of a well-formed state, [Update] returns one command,
    never nil and never a batch, and that command is a probe or a delayed
    timer for the same target; the state it returns is well formed and has
    the same targets. *)
Theorem one_operation_per_event (m : model) (msg : Msg) (idx : Z) :
  wf m -> target m idx -> msgIndex msg = Some idx ->
  exists m' c,
    Update ParseDuration m msg = Some (m', Some c) /\
    scheduledFor c = Some idx /\
    wf m' /\ target m' idx.
Proof.
  intros Hwf Hi Hmsg.
  assert (Hstep : exists m' c,
             Update ParseDuration m msg = Some (m', Some c) /\
             scheduledFor c = Some idx).
  { destruct msg as [t i|r [err|] i|data [err|] i|key| |];
      cbn in Hmsg; try discriminate; injection Hmsg as ->.
    - destruct (index_in_range (websites m) idx Hi) as [w Hw].
      eexists _, _. split; [apply Update_tick; eassumption | reflexivity].
    - eexists _, _. split; [apply Update_ping_failure; assumption | reflexivity].
    - destruct (index_in_range (websites m) idx Hi) as [w Hw].
      destruct (health_path_cases Any m idx) as [Hnc|[he Hc]]; [apply Hi| |].
      + eexists _, _. split;
          [apply Update_ping_success_plain; assumption | reflexivity].
      + eexists _, _. split;
          [eapply Update_ping_success_health; eassumption | reflexivity].
    - eexists _, _. split; [apply Update_health_failure; assumption | reflexivity].
    - eexists _, _. split; [apply Update_health_success; assumption | reflexivity]. }
  destruct Hstep as (m' & c & HU & Hc).
  exists m', c. split; [exact HU|]. split; [exact Hc|].
  destruct (Update_frame m m' msg (Some c) HU) as (_ & Hw & _ & Hwf' & _).
  split; [auto|]. unfold target. rewrite Hw. exact Hi.
Qed.

(** The state [initialModel] builds is well formed, and stays so along
    any sequence of messages. *)
Lemma initialModel_wf (loc : Location) (ws : list string) (s : string)
    (hs : list string) (ctx cancel : bool) :
  wf (initialModel (Any:=Any) loc ws s hs ctx cancel).
Proof. unfold wf. cbn. now rewrite !length_replicate. Qed.

Lemma feed_wf (msgs : list Msg) (m m' : model) (cmds : list Cmd) :
  wf m -> feed ParseDuration m msgs = Some (m', cmds) ->
  wf m' /\ websites m' = websites m.
Proof.
  revert m m' cmds. induction msgs as [|msg msgs IH]; intros m m' cmds Hwf H.
  - cbn in H. injection H as <- <-. auto.
  - cbn [feed] in H.
    destruct (Update ParseDuration m msg) as [[m1 c]|] eqn:HU;
      cbn [mbind option_bind] in H; [|discriminate].
    destruct (feed ParseDuration m1 msgs) as [[m2 cs]|] eqn:HF;
      cbn [mbind option_bind] in H; [|discriminate].
    injection H as <- <-.
    destruct (Update_frame m m1 msg c HU) as (_ & Hw & _ & Hwf1 & _).
    destruct (IH m1 m2 cs (Hwf1 Hwf) HF) as [Hwf2 Hw2].
    split; [exact Hwf2 | congruence].
Qed.

(** [Init] starts the ping of every website. *)
Lemma Init_pings (m : model) (idx : Z) (website : string) :
  index (websites m) idx = Some website ->
  exists cmds,
    Init m = Batch cmds /\
    len cmds = len (websites m) /\
    index cmds idx = Some (pingWebsiteCmdWithContext website idx).
Proof.
  intros Hw. eexists. split; [reflexivity|]. split.
  - unfold len. now rewrite length_imap.
  - unfold index in *. destruct (decide _); [|discriminate].
    rewrite list_lookup_imap, Hw. cbn. now rewrite Z2Nat.id.
Qed.


(** C3. For every target of a well-formed state the cycle runs in this
    order: [Init] and every tick issue the ping of the target; a failed
    ping schedules the delay; a successful ping of a target with a health
    path issues its health check, and the result of that check, whatever
    it is, schedules the delay; a successful ping of a target without
    health path schedules the delay directly. *)
Theorem cycle_order (m : model) (idx : Z) (website : string) :
  wf m -> index (websites m) idx = Some website ->
  (exists cmds,
     Init m = Batch cmds /\ index cmds idx = Some (PingClosure website idx)) /\
  (forall t,
     Update ParseDuration m (tickMsgWithIndex t idx)
       = Some (m, Some (PingClosure website idx))) /\
  (forall r err, exists m',
     Update ParseDuration m (pingResultWithIndex r (Some err) idx)
       = Some (m', Some (schedulePing ParseDuration (schedule m) idx))) /\
  (forall r he, healthConfigured m idx he -> exists m',
     Update ParseDuration m (pingResultWithIndex r None idx)
       = Some (m', Some (HealthClosure website he idx))) /\
  (forall r, healthNotConfigured m idx -> exists m',
     Update ParseDuration m (pingResultWithIndex r None idx)
       = Some (m', Some (schedulePing ParseDuration (schedule m) idx))) /\
  (forall data err, exists m',
     Update ParseDuration m (healthResultGenericWithIndex data err idx)
       = Some (m', Some (schedulePing ParseDuration (schedule m) idx))).
Proof.
  intros Hwf Hw. assert (Hi : target m idx) by (eapply index_Some_range; eassumption).
  split.
  { destruct (Init_pings m idx website Hw) as (cmds & HI & _ & Hc). eauto. }
  split.
  { intros t. now apply Update_tick. }
  split.
  { intros r err. eexists. now apply Update_ping_failure. }
  split.
  { intros r he Hc. eexists. now eapply Update_ping_success_health. }
  split.
  { intros r Hnc. eexists. now apply Update_ping_success_plain. }
  intros data [err|]; eexists.
  - now apply Update_health_failure.
  - now apply Update_health_success.
Qed.


End Controller.

(** ** The endpoint checker *)

Section Checker.

Variable Any : Type.
Variable unmarshalObject : string -> option (gmap string Any) + string.

Local Abbreviation Msg := (Msg Any).
#[local] Existing Instances IO_ret IO_bind.

Lemma run_Vis {A W X} (h : forall X, Event Any X -> W -> X * W)
    (e : Event Any X) (k : X -> IO Any A) (w : W) :
  run h (Vis e k) w =
  let '(x, w1) := h _ e w in
  let '(o, t, w2) := run h (k x) w1 in
  (o, MkCall e :: t, w2).
Proof. reflexivity. Qed.

Lemma result_Vis {A W X} (h : forall X, Event Any X -> W -> X * W)
    (e : Event Any X) (k : X -> IO Any A) (w : W) :
  result (run h (Vis e k) w) =
  result (run h (k (fst (h _ e w))) (snd (h _ e w))).
Proof.
  rewrite run_Vis. destruct (h _ e w) as [x w1]. cbn [fst snd].
  destruct (run h (k x) w1) as [[o t] w2]. reflexivity.
Qed.

(** What is left of a health check once the body has been read: the
    verdict [r] is computed, the body is closed, [r] is returned. *)
Lemma run_close {A W} (h : forall X, Event Any X -> W -> X * W)
    (body : nat) (r : A) (w : W) :
  result (run h (Vis (CloseBodyE body) (fun _ => Ret r)) w) = Returned r.
Proof.
  rewrite run_Vis. destruct (h _ (CloseBodyE body) w) as [[] w']. reflexivity.
Qed.

(** X19. With a health path the first thing the check does is build a
    [GET] request for the URL made of [https://], the website and the
    path, put together as they are. *)
Lemma health_configured_requests {W} (h : forall X, Event Any X -> W -> X * W)
    (website he : string) (idx : Z) (w : W) :
  he <> "" ->
  exists t,
    trace (run h (healthBody unmarshalObject website he idx) w) =
    MkCall (NewRequestE "GET" (HTTPSScheme +:+ website +:+ he)) :: t.
Proof.
  intros Hne. unfold healthBody. destruct (decide _) as [|_]; [contradiction|].
  cbn [mbind IO_bind io_bind trigger]. rewrite run_Vis.
  destruct (h _ _ w) as [x w1]. destruct (run h _ w1) as [[o t] w2].
  exists t. reflexivity.
Qed.

(** The timer sleeps for its duration, reads the clock and answers with a
    tick for its target. *)
Lemma sleep_then_tick {W} (h : forall X, Event Any X -> W -> X * W)
    (dur : Duration) (idx : Z) (w : W) :
  exists t,
    result (run h (sleepBody dur idx) w) = Returned (tickMsgWithIndex t idx) /\
    trace (run h (sleepBody dur idx) w) = [MkCall (SleepE dur); MkCall NowE].
Proof.
  unfold sleepBody. cbn [mbind IO_bind io_bind trigger]. rewrite run_Vis.
  destruct (h _ (SleepE dur) w) as [[] w1]. rewrite run_Vis.
  destruct (h _ NowE w1) as [t w2]. exists t. split; reflexivity.
Qed.

(** A ping answers with a ping result for its target. *)
Lemma ping_answers_target {W} (h : forall X, Event Any X -> W -> X * W)
    (website : string) (idx : Z) (w : W) :
  exists r e,
    result (run h (pingBody website idx) w)
    = Returned (pingResultWithIndex (Any:=Any) r e idx).
Proof.
  unfold pingBody. cbn [mbind IO_bind io_bind trigger]. rewrite result_Vis.
  rewrite result_Vis. destruct (fst (h _ (DialE _ _ _) _)) as [c|err].
  - cbn [io_bind]. rewrite !result_Vis. eexists _, _. reflexivity.
  - eexists _, _. reflexivity.
Qed.

(** A health check answers with a health result for its target. *)
Lemma health_answers_target {W} (h : forall X, Event Any X -> W -> X * W)
    (website he : string) (idx : Z) (w : W) :
  exists d e,
    result (run h (healthBody unmarshalObject website he idx) w)
    = Returned (healthResultGenericWithIndex d e idx).
Proof.
  unfold healthBody. destruct (decide (he = "")); [eexists _, _; reflexivity|].
  cbn [mbind IO_bind io_bind trigger]. rewrite result_Vis.
  destruct (fst (h _ (NewRequestE _ _) _)) as [req|err];
    [|eexists _, _; reflexivity].
  cbn [io_bind]. rewrite result_Vis.
  destruct (fst (h _ (DoE _) _)) as [resp|err]; [|eexists _, _; reflexivity].
  cbn [io_bind]. rewrite result_Vis.
  destruct (fst (h _ (ReadAllE _) _)) as [body|err].
  - destruct (decide _).
    + cbn [io_bind]. eexists _, _. apply run_close.
    + destruct (unmarshalObject body); cbn [io_bind]; eexists _, _;
        apply run_close.
  - cbn [io_bind]. eexists _, _. apply run_close.
Qed.

(** C5. For every website and index, the health check of an empty health
    path is the computation that returns the result "health endpoint not
    configured" at once: run in any world it asks the world for nothing,
    so no request is built and none is sent, and it leaves the world as it
    found it. *)
Theorem health_not_configured_no_request (website : string) (idx : Z) :
  call unmarshalObject (fetchHealthCmdWithContext website "" idx) =
    Some (Ret (healthResultGenericWithIndex None
                 (Some "health endpoint not configured") idx)) /\
  forall W (h : forall X, Event Any X -> W -> X * W) (w : W),
    run h (healthBody unmarshalObject website "" idx) w =
    (Returned (healthResultGenericWithIndex None
                 (Some "health endpoint not configured") idx), [], w).
Proof. split; reflexivity. Qed.

(** C8, as the code has it.  Let the request of a health check be built,
    sent and answered.  If reading the body fails, the check fails with the
    error of the read, whatever the status.  If the body is read and the
    status is outside 200-299, the check fails with the text "health
    endpoint HTTP <status>: <body>".  If the body is read and the status is
    in 200-299, the verdict is the decoder's: when [json.Unmarshal] accepts
    the body the check returns what it decoded, as it is and with no error
    (a decoded object, or the nil map for a body the decoder accepts
    without decoding an object); when it reports an error the check fails
    with the text "invalid JSON from health endpoint: <decoder error>", a
    new line and "Body: <body>". *)
Theorem health_response_outcomes {W} (h : forall X, Event Any X -> W -> X * W)
    (w0 w1 w2 w3 : W) (website he : string) (idx : Z)
    (req : Request) (resp : Response) (read : string + string) :
  he <> "" ->
  h _ (NewRequestE "GET" (HTTPSScheme +:+ website +:+ he)) w0 = (inl req, w1) ->
  h _ (DoE req) w1 = (inl resp, w2) ->
  h _ (ReadAllE (Body resp)) w2 = (read, w3) ->
  let r := result (run h (healthBody unmarshalObject website he idx) w0) in
  match read with
  | inr err => r = Returned (healthResultGenericWithIndex None (Some err) idx)
  | inl body =>
      (StatusCode resp < 200 \/ 300 <= StatusCode resp ->
       r = Returned (healthResultGenericWithIndex None
             (Some ("health endpoint HTTP " +:+ itoa (StatusCode resp) +:+ ": "
                    +:+ body))
             idx)) /\
      (200 <= StatusCode resp < 300 ->
       match unmarshalObject body with
       | inl data => r = Returned (healthResultGenericWithIndex data None idx)
       | inr e =>
           r = Returned (healthResultGenericWithIndex None
                 (Some ("invalid JSON from health endpoint: " +:+ e +:+ nl +:+
                        "Body: " +:+ body))
                 idx)
       end)
  end.
Proof.
  intros Hne Hreq Hdo Hread r. subst r. unfold healthBody.
  destruct (decide (he = "")) as [|_]; [contradiction|].
  cbn [mbind IO_bind io_bind trigger].
  rewrite result_Vis, Hreq. cbn [fst snd mbind IO_bind io_bind trigger].
  rewrite result_Vis, Hdo. cbn [fst snd mbind IO_bind io_bind trigger].
  rewrite result_Vis, Hread. cbn [fst snd mbind IO_bind io_bind trigger].
  destruct read as [body|err].
  - split.
    + intros Hout. destruct (decide _) as [_|Hn]; [|lia].
      cbn [io_bind]. apply run_close.
    + intros Hin. destruct (decide _) as [Hn|_]; [lia|].
      destruct (unmarshalObject body); cbn [io_bind]; apply run_close.
  - cbn [io_bind]. apply run_close.
Qed.

End Checker.

(** ** Start-up *)

Section Startup.

Variable ParseIP : string -> bool.
Variable ParseDuration : string -> Duration + string.
Variable LoadLocation : string -> Location + string.
Variable Local : Location.
Variable unmarshalStrings : string -> list string + string.
Variable quote : string -> string.

Local Abbreviation start :=
  (main ParseIP ParseDuration LoadLocation Local unmarshalStrings quote).
Local Abbreviation validHost := (isValidHostname ParseIP).
Local Abbreviation firstBad := (firstInvalid ParseIP).

Lemma firstInvalid_Some (ws : list string) (w : string) :
  firstBad ws = Some w -> In w ws /\ validHost w = false.
Proof.
  induction ws as [|x ws IH]; cbn; [discriminate|].
  destruct (validHost x) eqn:Hx; cbn.
  - intros H. destruct (IH H). auto.
  - intros [= <-]. auto.
Qed.

Lemma firstInvalid_None (ws : list string) (w : string) :
  firstBad ws = None -> In w ws -> validHost w = true.
Proof.
  induction ws as [|x ws IH]; cbn; [contradiction|].
  destruct (validHost x) eqn:Hx; cbn; [|discriminate].
  intros H [<-|Hin]; auto.
Qed.

(** The empty string is no host name when it is no IP literal. *)
Lemma empty_hostname_invalid :
  ParseIP "" = false -> validHost "" = false.
Proof. intros H. unfold isValidHostname. rewrite H. reflexivity. Qed.

Lemma message_not_empty (s : string) : s +:+ nl <> "".
Proof. destruct s; discriminate. Qed.

(** [main] stops with exit status 1 and one of its messages, or goes on
    with a configuration it has checked. *)
Lemma main_cases (getenv : string -> string) :
  (exists out, start getenv = Exit 1 out /\ startupMessage ParseIP quote getenv out) \/
  (exists ws loc hs,
     start getenv = Run ws (effectiveSchedule getenv) hs loc /\
     restAccepted ParseIP ParseDuration LoadLocation Local unmarshalStrings
       getenv ws (effectiveSchedule getenv) loc /\
     healthEndpointsOf unmarshalStrings (getenv "HEALTH_ENDPOINT") ws = Some hs).
Proof.
  unfold main, startupMessage, restAccepted.
  fold (effectiveSchedule getenv).
  destruct (unmarshalStrings (getenv "PING_WEBSITE")) as [ws|e] eqn:Hws;
    [|left; eexists; split; [reflexivity | auto]].
  destruct (decide (len ws = 0)) as [Hz|Hz];
    [left; eexists; split; [reflexivity | auto]|].
  destruct (firstBad ws) as [w|] eqn:Hfi.
  { apply firstInvalid_Some in Hfi as [_ Hw].
    left; eexists; split; [reflexivity|]. right; left. eauto. }
  destruct (isValidSchedule ParseDuration (effectiveSchedule getenv)) eqn:Hs; cbn [negb];
    [|left; eexists; split; [reflexivity | auto]].
  destruct (if decide (getenv "TIMEZONE" <> "") then LoadLocation (getenv "TIMEZONE")
            else inl Local) as [loc|e] eqn:Hloc;
    [|left; eexists; split; [reflexivity | auto 6]].
  destruct (healthEndpointsOf unmarshalStrings (getenv "HEALTH_ENDPOINT") ws)
    as [hs|] eqn:Hhe;
    [|left; eexists; split; [reflexivity | auto 6]].
  right. exists ws, loc, hs. split; [reflexivity|].
  split; [|assumption].
  repeat split; auto. intros ->. apply Hz. reflexivity.
Qed.

Lemma startupMessage_not_empty (getenv : string -> string) (out : string) :
  startupMessage ParseIP quote getenv out -> out <> "".
Proof.
  intros [-> | [[w [_ ->]] | [-> | [-> | ->]]]]; try apply message_not_empty;
    cbn; discriminate.
Qed.

(** What [main] does once everything but the health paths is accepted. *)
Lemma main_accepted (getenv : string -> string)
    (ws : list string) (sched : string) (loc : Location) :
  restAccepted ParseIP ParseDuration LoadLocation Local unmarshalStrings
    getenv ws sched loc ->
  start getenv =
  match healthEndpointsOf unmarshalStrings (getenv "HEALTH_ENDPOINT") ws with
  | None =>
      Exit 1 ("HEALTH_ENDPOINT must be a JSON array with the same length as PING_WEBSITE, or a single string." +:+ nl)
  | Some hs => Run ws sched hs loc
  end.
Proof.
  intros (Hws & Hne & Hfi & Hsched & Hs & Hloc). subst sched. unfold main.
  fold (effectiveSchedule getenv). rewrite Hws.
  destruct (decide (len ws = 0)) as [Hz|_].
  { destruct ws; [contradiction | discriminate]. }
  rewrite Hfi, Hs. cbn [negb]. rewrite Hloc. reflexivity.
Qed.

(** The same path in every slot. *)
Lemma index_replicate (n : nat) (x : string) (idx : Z) :
  0 <= idx < Z.of_nat n -> index (replicate n x) idx = Some x.
Proof.
  intros Hi. unfold index. destruct (decide _); [|lia].
  apply lookup_replicate_2. lia.
Qed.

(** X14. When [main] goes on, the schedule it hands to the program is one
    [isValidSchedule] accepts, every website is a valid host name and there
    is one health path per website. *)
Lemma main_Run_checked (getenv : string -> string)
    (ws : list string) (sched : string) (hs : list string) (loc : Location) :
  start getenv = Run ws sched hs loc ->
  isValidSchedule ParseDuration sched = true /\
  firstBad ws = None /\
  len hs = len ws.
Proof.
  intros Hrun.
  destruct (main_cases getenv)
    as [(out & Hm & _)|(ws' & loc' & hs' & Hm & Hok & Hhe)];
    rewrite Hm in Hrun; [discriminate|].
  injection Hrun as -> <- -> ->.
  destruct Hok as (_ & _ & Hfi & _ & Hs & _).
  split; [exact Hs|]. split; [exact Hfi|].
  unfold healthEndpointsOf, make in Hhe.
  destruct (decide (getenv "HEALTH_ENDPOINT" <> "")) as [_|_].
  - destruct (unmarshalStrings (getenv "HEALTH_ENDPOINT")) as [l|e].
    + destruct (decide (len l <> len ws)) as [|Heq]; [discriminate|].
      injection Hhe as <-. now apply dec_stable in Heq.
    + injection Hhe as <-. unfold len.
      now rewrite length_fmap, length_replicate.
  - injection Hhe as <-. unfold len. now rewrite length_replicate.
Qed.

(** C6. A configuration with a malformed website (an empty-string entry
    among them), with a schedule that is set and does not parse, with a
    time zone that is set and unknown, or with an array of health paths of
    another length than the array of websites makes [main] print one of
    its messages, which is not empty, and exit with status 1: it does not
    go on to run the program with a default in place of the bad value. *)
Theorem invalid_configuration_exits (getenv : string -> string) :
  invalidConfiguration ParseIP ParseDuration LoadLocation unmarshalStrings getenv ->
  exists out,
    start getenv = Exit 1 out /\
    out <> "" /\
    startupMessage ParseIP quote getenv out.
Proof.
  intros Hbad.
  destruct (main_cases getenv) as [(out & Hm & Hmsg)|(ws & loc & hs & _ & Hok & Hhe)].
  { exists out. split; [exact Hm|]. split; [|exact Hmsg].
    eapply startupMessage_not_empty. exact Hmsg. }
  exfalso. destruct Hok as (Hws & _ & Hfi & _ & Hs & Hloc).
  destruct Hbad as [(ws' & w & Hws' & Hin & Hw)
                   |[(Hip & ws' & Hws' & Hin)
                   |[(Hne & Hv)
                   |[(Hne & e & He)
                   |(Hne & ws' & hs' & Hws' & Hhs' & Hlen)]]]].
  - rewrite Hws in Hws'. injection Hws' as <-.
    rewrite (firstInvalid_None ws w Hfi Hin) in Hw. discriminate.
  - rewrite Hws in Hws'. injection Hws' as <-.
    pose proof (firstInvalid_None ws "" Hfi Hin) as Hv.
    rewrite (empty_hostname_invalid Hip) in Hv. discriminate.
  - unfold effectiveSchedule in Hs.
    destruct (decide (getenv "PING_SCHEDULE" = "")) as [Hn|_];
      [contradiction | congruence].
  - destruct (decide (getenv "TIMEZONE" <> "")) as [_|Hn];
      [congruence | contradiction].
  - rewrite Hws in Hws'. injection Hws' as <-.
    unfold healthEndpointsOf in Hhe.
    destruct (decide (getenv "HEALTH_ENDPOINT" <> "")) as [_|Hn]; [|contradiction].
    rewrite Hhs' in Hhe. unfold len in Hhe.
    destruct (decide (Z.of_nat (length hs') <> Z.of_nat (length ws)))
      as [_|Hn]; [discriminate | lia].
Qed.

(** C10, as the code has it.  Let the rest of the configuration be
    accepted.  If
    [HEALTH_ENDPOINT] is empty, or is not empty and [json.Unmarshal] into
    an array of strings reports an error for it, then [main] does not
    exit: it starts the program with one health path per website, and the
    path of every website is the raw value of [HEALTH_ENDPOINT] (so the
    empty, disabled path when the value is empty). *)
Theorem health_endpoint_fallback (getenv : string -> string)
    (ws : list string) (sched : string) (loc : Location) :
  restAccepted ParseIP ParseDuration LoadLocation Local unmarshalStrings
    getenv ws sched loc ->
  getenv "HEALTH_ENDPOINT" = "" \/
  (exists e, unmarshalStrings (getenv "HEALTH_ENDPOINT") = inr e) ->
  exists hs,
    start getenv = Run ws sched hs loc /\
    len hs = len ws /\
    forall idx, 0 <= idx < len ws ->
      index hs idx = Some (getenv "HEALTH_ENDPOINT").
Proof.
  intros Hok Hhe. rewrite (main_accepted getenv ws sched loc Hok).
  unfold healthEndpointsOf, make.
  destruct (decide (getenv "HEALTH_ENDPOINT" <> "")) as [Hne|He].
  - destruct Hhe as [He|[e He]]; [contradiction|]. rewrite He.
    rewrite fmap_replicate. eexists. split; [reflexivity|]. split.
    + unfold len. now rewrite length_replicate.
    + intros idx Hi. now apply index_replicate.
  - apply dec_stable in He. rewrite He.
    eexists. split; [reflexivity|]. split.
    + unfold len. now rewrite length_replicate.
    + intros idx Hi. now apply index_replicate.
Qed.

End Startup.

(** ** The presenter *)

Section PresenterFacts.

Variable Any : Type.
Variable Render : Style -> string -> string.
Variable asString : Any -> option string.
Variable sprintV : Any -> string.
Variable parseRFC3339 : string -> option Time.
Variable Local : Location.

Local Abbreviation IO := (IO Any).
Local Abbreviation model := (model Any).
#[local] Existing Instances IO_ret IO_bind.

Lemma readsOnly_bind {A B} (p : IO A) (f : A -> IO B) :
  readsOnly p -> (forall a, readsOnly (f a)) -> readsOnly (p ≫= f).
Proof.
  intros Hp Hf. induction Hp as [a| |k Hk IH|data k Hk IH];
    cbn [mbind IO_bind io_bind] in *.
  - apply Hf.
  - constructor.
  - constructor. exact IH.
  - constructor. exact IH.
Qed.

Lemma readsOnly_at {A} (s : list A) (i : Z) : readsOnly (at_ (Any:=Any) s i).
Proof. unfold at_. destruct (index s i); constructor. Qed.

Lemma readsOnly_trigger_Now : readsOnly (trigger (Any:=Any) NowE).
Proof. constructor. intros t. constructor. Qed.

Lemma readsOnly_trigger_Range (data : gmap string Any) :
  readsOnly (trigger (RangeE data)).
Proof. constructor. intros l. constructor. Qed.

(** Pieces of [View] are binds, branches and returns over index
    expressions and the two readings. *)
Ltac reads :=
  repeat first
    [ apply readsOnly_bind; [|intro]
    | apply readsOnly_at
    | apply readsOnly_trigger_Now
    | apply readsOnly_trigger_Range
    | apply readsOnly_Ret
    | apply readsOnly_Crash
    | match goal with
      | |- readsOnly (if ?c then _ else _) => destruct c
      | |- readsOnly (match ?x with Some _ => _ | None => _ end) => destruct x
      end ].

Lemma readsOnly_renderHealthSection (data : gmap string Any) (tz : option Location) :
  readsOnly (renderHealthSection Render asString sprintV parseRFC3339 data tz).
Proof. unfold renderHealthSection. reads. Qed.

Lemma readsOnly_viewWebsite (m : model) (b : string) (i : Z) (website : string) :
  readsOnly (viewWebsite Render asString sprintV parseRFC3339 Local m b i website).
Proof.
  unfold viewWebsite. reads; apply readsOnly_renderHealthSection.
Qed.

Lemma readsOnly_viewLoop (m : model) (ws : list string) (b : string) (i : Z) :
  readsOnly (viewLoop Render asString sprintV parseRFC3339 Local m b i ws).
Proof.
  revert b i. induction ws as [|w ws IH]; intros b i; cbn [viewLoop].
  - constructor.
  - apply readsOnly_bind; [apply readsOnly_viewWebsite | intros b'; apply IH].
Qed.

Lemma readsOnly_View (m : model) :
  readsOnly (View Render asString sprintV parseRFC3339 Local m).
Proof.
  unfold View. apply readsOnly_bind; [apply readsOnly_viewLoop|].
  intros b. constructor.
Qed.

(** Worlds that agree on the time and on the order of maps give the same
    outcome to a computation that asks for nothing else. *)
Lemma readsOnly_run {A W1 W2} (p : IO A)
    (h1 : forall X, Event Any X -> W1 -> X * W1)
    (h2 : forall X, Event Any X -> W2 -> X * W2)
    (R : W1 -> W2 -> Prop) :
  readsOnly p -> sameReads h1 h2 R ->
  forall w1 w2, R w1 w2 -> result (run h1 p w1) = result (run h2 p w2).
Proof.
  intros Hp Hsame. induction Hp as [a| |k Hk IH|data k Hk IH]; intros w1 w2 HR.
  - reflexivity.
  - reflexivity.
  - rewrite !result_Vis. destruct (Hsame w1 w2 HR) as [[Ht HR'] _].
    rewrite Ht. apply IH. exact HR'.
  - rewrite !result_Vis. destruct (Hsame w1 w2 HR) as [_ Hd].
    destruct (Hd data) as [Hl HR']. rewrite Hl. apply IH. exact HR'.
Qed.

(** C9, as the code has it.  [View] asks the world for the time and for
    the order in which to visit the entries of a health object, and for
    nothing else; two invocations on the same state that are told the same
    times and the same orders produce the same output. *)
Theorem view_depends_on_state_clock_and_order {W1 W2}
    (h1 : forall X, Event Any X -> W1 -> X * W1)
    (h2 : forall X, Event Any X -> W2 -> X * W2)
    (R : W1 -> W2 -> Prop) (m : model) (w1 : W1) (w2 : W2) :
  sameReads h1 h2 R -> R w1 w2 ->
  readsOnly (View Render asString sprintV parseRFC3339 Local m) /\
  result (run h1 (View Render asString sprintV parseRFC3339 Local m) w1) =
  result (run h2 (View Render asString sprintV parseRFC3339 Local m) w2).
Proof.
  intros Hsame HR. split; [apply readsOnly_View|].
  eapply readsOnly_run; [apply readsOnly_View | exact Hsame | exact HR].
Qed.

End PresenterFacts.

(** C9, as stated, fails: the state [Reference.pinged] holds a ping text,
    so [View] prints the time at which it is called; called at the epoch
    and one second later, in the same world otherwise, it prints two
    different texts. *)
Lemma view_depends_on_clock :
  result (run (scripted 0 200 "")
            (View Reference.Render Reference.asString Reference.sprintV
                  Reference.parseRFC3339 Reference.UTC Reference.pinged) 0)
  <>
  result (run (scripted 0 200 "")
            (View Reference.Render Reference.asString Reference.sprintV
                  Reference.parseRFC3339 Reference.UTC Reference.pinged)
            1000000000).
Proof. vm_compute. discriminate. Qed.

(** C8, as stated, fails twice.  The body [null] is no JSON object, since
    it does not start with a brace, yet with status 200 the decoder accepts
    it and the check returns a nil object and no error, not an invalid-JSON
    failure.  And with status 500 and a body that cannot be read, the check
    fails with the error of the read, which carries neither the status nor
    a body. *)
Lemma health_null_body_is_no_failure :
  startsObject "null" = false /\
  result (run (scripted 0 200 "null")
            (healthBody Reference.unmarshalObject "example.com" "/health" 0) 0)
  = Returned (healthResultGenericWithIndex None None 0) /\
  result (run (Samples.truncated 500)
            (healthBody Reference.unmarshalObject "example.com" "/health" 0) 0)
  = Returned (healthResultGenericWithIndex None (Some "unexpected EOF") 0).
Proof. repeat split. Qed.

(** C10, as stated, fails: the value [null] of [HEALTH_ENDPOINT] is not
    empty and is no JSON array, since it does not start with a bracket, yet
    [json.Unmarshal] decodes it without error into a slice left nil, and
    [main], finding no health path for two websites, prints its message
    and exits with status 1. *)
Lemma health_endpoint_null_exits :
  "null" <> "" /\
  startsArray "null" = false /\
  main Reference.ParseIP Reference.ParseDuration Reference.LoadLocation
    Reference.UTC Reference.unmarshalStrings Reference.quote
    (Reference.environment Reference.twoWebsites "" "" "null")
  = Exit 1 ("HEALTH_ENDPOINT must be a JSON array with the same length as PING_WEBSITE, or a single string." +:+ nl).
Proof.
  split; [discriminate|]. split; [reflexivity|]. vm_compute. reflexivity.
Qed.

(** ** The theorems on the reference platform *)

Lemma ping_failure_clears_health_witness :
  wf Reference.watching /\
  target Reference.watching 0 /\
  exists m' c,
    Update Reference.ParseDuration Reference.watching
      (pingResultWithIndex "" (Some "i/o timeout") 0) = Some (m', c) /\
    index (lastHealthGeneric m') 0 = Some None /\
    index (lastError m') 0 = Some "i/o timeout" /\
    index (lastPing m') 0 = Some "".
Proof.
  assert (Hwf : wf Reference.watching) by (repeat split; reflexivity).
  assert (Hi : target Reference.watching 0) by (unfold target, len; simpl; lia).
  split; [exact Hwf|]. split; [exact Hi|].
  exact (ping_failure_clears_health Reference.Scalar Reference.ParseDuration
           Reference.watching 0 "" "i/o timeout" Hwf Hi).
Defined.

Lemma health_failure_keeps_ping_witness :
  wf Reference.watching /\
  target Reference.watching 0 /\
  exists m' c,
    Update Reference.ParseDuration Reference.watching
      (healthResultGenericWithIndex None (Some "health endpoint HTTP 500: oops") 0)
      = Some (m', c) /\
    lastPing m' = lastPing Reference.watching /\
    index (lastError m') 0 = Some "health endpoint HTTP 500: oops" /\
    index (lastHealthGeneric m') 0 = Some None.
Proof.
  assert (Hwf : wf Reference.watching) by (repeat split; reflexivity).
  assert (Hi : target Reference.watching 0) by (unfold target, len; simpl; lia).
  split; [exact Hwf|]. split; [exact Hi|].
  exact (health_failure_keeps_ping Reference.Scalar Reference.ParseDuration
           Reference.watching 0 None "health endpoint HTTP 500: oops" Hwf Hi).
Defined.

Lemma one_operation_per_event_witness :
  wf Reference.watching /\
  target Reference.watching 1 /\
  msgIndex (pingResultWithIndex (Any:=Reference.Scalar) "Ping to example.org:" None 1)
    = Some 1 /\
  exists m' c,
    Update Reference.ParseDuration Reference.watching
      (pingResultWithIndex "Ping to example.org:" None 1) = Some (m', Some c) /\
    scheduledFor c = Some 1 /\
    wf m' /\ target m' 1.
Proof.
  assert (Hwf : wf Reference.watching) by (repeat split; reflexivity).
  assert (Hi : target Reference.watching 1) by (unfold target, len; simpl; lia).
  split; [exact Hwf|]. split; [exact Hi|]. split; [reflexivity|].
  exact (one_operation_per_event Reference.Scalar Reference.ParseDuration
           Reference.watching (pingResultWithIndex "Ping to example.org:" None 1) 1
           Hwf Hi eq_refl).
Defined.

Lemma cycle_order_witness :
  wf Reference.watching /\
  index (websites Reference.watching) 0 = Some "example.com" /\
  (forall r, exists m',
     Update Reference.ParseDuration Reference.watching
       (pingResultWithIndex r None 0)
     = Some (m', Some (HealthClosure "example.com" "/health" 0))).
Proof.
  assert (Hwf : wf Reference.watching) by (repeat split; reflexivity).
  assert (Hw : index (websites Reference.watching) 0 = Some "example.com")
    by reflexivity.
  assert (Hc : healthConfigured Reference.watching 0 "/health")
    by (split; [reflexivity | discriminate]).
  split; [exact Hwf|]. split; [exact Hw|].
  intros r.
  exact (proj1 (proj2 (proj2 (proj2
           (cycle_order Reference.Scalar Reference.ParseDuration
              Reference.watching 0 "example.com" Hwf Hw)))) r "/health" Hc).
Defined.


Lemma health_response_outcomes_witness :
  "/health" <> "" /\
  result (run (scripted 0 500 "oops")
            (healthBody Reference.unmarshalObject "example.com" "/health" 0) 0)
  = Returned (healthResultGenericWithIndex None
                (Some "health endpoint HTTP 500: oops") 0) /\
  result (run (scripted 0 200 "{}")
            (healthBody Reference.unmarshalObject "example.com" "/health" 0) 0)
  = Returned (healthResultGenericWithIndex (Some ∅) None 0) /\
  result (run (scripted 0 200 "oops")
            (healthBody Reference.unmarshalObject "example.com" "/health" 0) 0)
  = Returned (healthResultGenericWithIndex None
                (Some ("invalid JSON from health endpoint: " +:+
                       "json: cannot unmarshal into Go value of type map[string]interface {}"
                       +:+ nl +:+ "Body: oops")) 0) /\
  result (run (Samples.truncated 200)
            (healthBody Reference.unmarshalObject "example.com" "/health" 0) 0)
  = Returned (healthResultGenericWithIndex None (Some "unexpected EOF") 0).
Proof.
  assert (Hne : "/health" <> "") by discriminate.
  assert (H200 : 200 <= 200 < 300) by lia.
  split; [exact Hne|]. split; [|split; [|split]].
  - refine (proj1 (health_response_outcomes Reference.Scalar
             Reference.unmarshalObject (scripted 0 500 "oops") 0 0 0 0
             "example.com" "/health" 0
             {| Method := "GET"; URL := "https://example.com/health" |}
             {| StatusCode := 500; Body := 0%nat |} (inl "oops")
             Hne eq_refl eq_refl eq_refl) _).
    right. simpl. lia.
  - exact (proj2 (health_response_outcomes Reference.Scalar
             Reference.unmarshalObject (scripted 0 200 "{}") 0 0 0 0
             "example.com" "/health" 0
             {| Method := "GET"; URL := "https://example.com/health" |}
             {| StatusCode := 200; Body := 0%nat |} (inl "{}")
             Hne eq_refl eq_refl eq_refl) H200).
  - exact (proj2 (health_response_outcomes Reference.Scalar
             Reference.unmarshalObject (scripted 0 200 "oops") 0 0 0 0
             "example.com" "/health" 0
             {| Method := "GET"; URL := "https://example.com/health" |}
             {| StatusCode := 200; Body := 0%nat |} (inl "oops")
             Hne eq_refl eq_refl eq_refl) H200).
  - exact (health_response_outcomes Reference.Scalar
             Reference.unmarshalObject (Samples.truncated 200) 0 0 0 0
             "example.com" "/health" 0
             {| Method := "GET"; URL := "https://example.com/health" |}
             {| StatusCode := 200; Body := 0%nat |} (inr "unexpected EOF")
             Hne eq_refl eq_refl eq_refl).
Defined.

Lemma invalid_configuration_exits_witness :
  invalidConfiguration Reference.ParseIP Reference.ParseDuration
    Reference.LoadLocation Reference.unmarshalStrings
    (Reference.environment Reference.emptyEntry "" "" "") /\
  exists out,
    main Reference.ParseIP Reference.ParseDuration Reference.LoadLocation
      Reference.UTC Reference.unmarshalStrings Reference.quote
      (Reference.environment Reference.emptyEntry "" "" "") = Exit 1 out /\
    out <> "" /\
    startupMessage Reference.ParseIP Reference.quote
      (Reference.environment Reference.emptyEntry "" "" "") out.
Proof.
  assert (Hbad : invalidConfiguration Reference.ParseIP Reference.ParseDuration
            Reference.LoadLocation Reference.unmarshalStrings
            (Reference.environment Reference.emptyEntry "" "" "")).
  { right; left. split; [reflexivity|].
    exists [""]. split; [vm_compute; reflexivity | left; reflexivity]. }
  split; [exact Hbad|].
  exact (invalid_configuration_exits Reference.ParseIP Reference.ParseDuration
           Reference.LoadLocation Reference.UTC Reference.unmarshalStrings
           Reference.quote _ Hbad).
Defined.

Lemma health_endpoint_fallback_witness :
  restAccepted Reference.ParseIP Reference.ParseDuration Reference.LoadLocation
    Reference.UTC Reference.unmarshalStrings
    (Reference.environment Reference.twoWebsites "" "" "/health")
    ["example.com"; "example.org"] "10s" Reference.UTC /\
  (exists e, Reference.unmarshalStrings "/health" = inr e) /\
  exists hs,
    main Reference.ParseIP Reference.ParseDuration Reference.LoadLocation
      Reference.UTC Reference.unmarshalStrings Reference.quote
      (Reference.environment Reference.twoWebsites "" "" "/health")
    = Run ["example.com"; "example.org"] "10s" hs Reference.UTC /\
    len hs = 2 /\
    forall idx, 0 <= idx < 2 -> index hs idx = Some "/health".
Proof.
  assert (Hok : restAccepted Reference.ParseIP Reference.ParseDuration
            Reference.LoadLocation Reference.UTC Reference.unmarshalStrings
            (Reference.environment Reference.twoWebsites "" "" "/health")
            ["example.com"; "example.org"] "10s" Reference.UTC).
  { repeat split; try (vm_compute; reflexivity). discriminate. }
  assert (He : exists e, Reference.unmarshalStrings "/health" = inr e)
    by (eexists; vm_compute; reflexivity).
  split; [exact Hok|]. split; [exact He|].
  exact (health_endpoint_fallback Reference.ParseIP Reference.ParseDuration
           Reference.LoadLocation Reference.UTC Reference.unmarshalStrings
           Reference.quote _ _ _ _ Hok (or_intror He)).
Defined.

Lemma view_depends_on_state_clock_and_order_witness :
  sameReads (Any:=Reference.Scalar) (scripted 0 200 "{}") (scripted 0 500 "oops") eq /\
  result (run (scripted 0 200 "{}")
            (View Reference.Render Reference.asString Reference.sprintV
               Reference.parseRFC3339 Reference.UTC Reference.watching) 7)
  = result (run (scripted 0 500 "oops")
            (View Reference.Render Reference.asString Reference.sprintV
               Reference.parseRFC3339 Reference.UTC Reference.watching) 7).
Proof.
  assert (Hs : sameReads (Any:=Reference.Scalar)
                 (scripted 0 200 "{}") (scripted 0 500 "oops") eq).
  { intros w1 w2 Hw. rewrite Hw. repeat split. }
  split; [exact Hs|].
  exact (proj2 (view_depends_on_state_clock_and_order Reference.Scalar
           Reference.Render Reference.asString Reference.sprintV
           Reference.parseRFC3339 Reference.UTC _ _ eq Reference.watching 7 7
           Hs eq_refl)).
Defined.

(** ** The one-website program: the same facts *)

Module SingleFacts.

Import Single.

Section Facts.

Variable Any : Type.
Variable ParseDuration : string -> Duration + string.
Variable unmarshalObject : string -> option (gmap string Any) + string.

#[local] Existing Instances IO_ret IO_bind.

(** A failed ping clears the health outcome and the ping text and records
    the error. *)
Lemma ping_failure_clears_health_single (m : model Any) (r err : string) :
  let m' := fst (Update ParseDuration m (pingResult r (Some err))) in
  lastHealthGeneric m' = None /\ lastError m' = err /\ lastPing m' = "".
Proof. cbn. auto. Qed.

(** A failed health check leaves the ping text alone. *)
Lemma health_failure_keeps_ping_single (m : model Any)
    (data : option (gmap string Any)) (err : string) :
  let m' := fst (Update ParseDuration m (healthResultGeneric data (Some err))) in
  lastPing m' = lastPing m /\ lastError m' = err /\ lastHealthGeneric m' = None.
Proof. cbn. auto. Qed.

(** The order of a cycle. *)
Lemma cycle_order_single (m : model Any) :
  Init m = PingClosure (website m) /\
  (forall t, snd (Update ParseDuration m (tickMsg t))
             = Some (PingClosure (website m))) /\
  (forall r err, snd (Update ParseDuration m (pingResult r (Some err)))
                 = Some (schedulePing ParseDuration (schedule m))) /\
  (forall r, healthEndpoint m <> "" ->
             snd (Update ParseDuration m (pingResult r None))
             = Some (HealthClosure (website m) (healthEndpoint m))) /\
  (forall r, healthEndpoint m = "" ->
             snd (Update ParseDuration m (pingResult r None))
             = Some (schedulePing ParseDuration (schedule m))) /\
  (forall data err, snd (Update ParseDuration m (healthResultGeneric data err))
                    = Some (schedulePing ParseDuration (schedule m))).
Proof.
  repeat split; try reflexivity.
  - intros r Hne. cbn. destruct (decide _) as [_|Hn]; [reflexivity | contradiction].
  - intros r He. cbn. destruct (decide _) as [Hn|_]; [contradiction | reflexivity].
  - intros data [err|]; reflexivity.
Qed.

(** Every tick, ping result and health result is answered by one command,
    which is not [Quit]. *)
Lemma one_operation_per_event_single (m : model Any) (msg : Msg Any) :
  (exists t, msg = tickMsg t) \/ (exists r e, msg = pingResult r e) \/
  (exists d e, msg = healthResultGeneric d e) ->
  exists c, snd (Update ParseDuration m msg) = Some c /\ c <> Quit.
Proof.
  intros [[t ->]|[(r & [e|] & ->)|(d & [e|] & ->)]]; cbn;
    try (eexists; split; [reflexivity | discriminate]).
  destruct (decide _); eexists; (split; [reflexivity | discriminate]).
Qed.

(** An accepted schedule is the delay of every timer. *)
Lemma accepted_schedule_single (s : string) :
  isValidSchedule ParseDuration s = true ->
  exists d, ParseDuration s = inl d /\ schedulePing ParseDuration s = SleepClosure d.
Proof.
  unfold isValidSchedule, schedulePing.
  destruct (ParseDuration s) as [d|e]; [eauto | discriminate].
Qed.

(** Without health path no request is built or sent. *)
Lemma health_not_configured_single {W}
    (h : forall X, Event Any X -> W -> X * W) (website : string) (w : W) :
  run h (healthBody unmarshalObject website "") w =
  (Returned (healthResultGeneric None (Some "health endpoint not configured")),
   [], w).
Proof. reflexivity. Qed.

(** A status outside 200-299 is reported with the status and the body. *)
Lemma health_status_single {W} (h : forall X, Event Any X -> W -> X * W)
    (w0 w1 w2 w3 : W) (website he : string)
    (req : Request) (resp : Response) (body : string) :
  he <> "" ->
  h _ (NewRequestE "GET" ("https://" +:+ website +:+ he)) w0 = (inl req, w1) ->
  h _ (DoE req) w1 = (inl resp, w2) ->
  h _ (ReadAllE (Body resp)) w2 = (inl body, w3) ->
  StatusCode resp < 200 \/ 300 <= StatusCode resp ->
  result (run h (healthBody unmarshalObject website he) w0) =
  Returned (healthResultGeneric None
     (Some ("health endpoint HTTP " +:+ itoa (StatusCode resp) +:+ ": " +:+ body))).
Proof.
  intros Hne Hreq Hdo Hread Hout. unfold healthBody.
  destruct (decide (he = "")) as [|_]; [contradiction|].
  cbn [mbind IO_bind io_bind trigger].
  rewrite result_Vis, Hreq. cbn [fst snd mbind IO_bind io_bind trigger].
  rewrite result_Vis, Hdo. cbn [fst snd mbind IO_bind io_bind trigger].
  rewrite result_Vis, Hread. cbn [fst snd mbind IO_bind io_bind trigger].
  destruct (decide _) as [_|Hn]; [|lia].
  cbn [io_bind]. apply run_close.
Qed.

End Facts.

Section StartupFacts.

Variable ParseDuration : string -> Duration + string.
Variable Local : Location.
Variable ParseIP : string -> bool.
Variable LoadLocation : string -> Location + string.
Variable quote : string -> string.

(** X20. In the program for one website, an unset or malformed website, a
    schedule that is set and does not parse and a time zone that is set and
    unknown stop the program with exit status 1. *)
Lemma invalid_configuration_single (getenv : string -> string) :
  getenv "PING_WEBSITE" = "" \/
  isValidHostname ParseIP (getenv "PING_WEBSITE") = false \/
  (getenv "PING_SCHEDULE" <> "" /\
   isValidSchedule ParseDuration (getenv "PING_SCHEDULE") = false) \/
  (getenv "TIMEZONE" <> "" /\ exists e, LoadLocation (getenv "TIMEZONE") = inr e) ->
  exists out,
    main ParseDuration Local ParseIP LoadLocation quote getenv = Exit 1 out.
Proof.
  intros Hbad. unfold main.
  destruct (decide (getenv "PING_WEBSITE" = "")) as [|Hw]; [eauto|].
  destruct (isValidHostname ParseIP (getenv "PING_WEBSITE")) eqn:Hh; cbn [negb];
    [|eauto].
  destruct (decide (getenv "PING_SCHEDULE" = "")) as [Hs|Hs].
  - destruct (isValidSchedule ParseDuration "10s"); cbn [negb]; [|eauto].
    destruct (decide (getenv "TIMEZONE" <> "")) as [Ht|Ht].
    + destruct (LoadLocation (getenv "TIMEZONE")) as [loc|e] eqn:Hl; [|eauto].
      exfalso. destruct Hbad as [?|[?|[[? _]|(_ & e & He)]]]; congruence.
    + exfalso. destruct Hbad as [?|[?|[[? _]|[? _]]]]; try congruence; contradiction.
  - destruct (isValidSchedule ParseDuration (getenv "PING_SCHEDULE")) eqn:Hv;
      cbn [negb]; [|eauto].
    destruct (decide (getenv "TIMEZONE" <> "")) as [Ht|Ht].
    + destruct (LoadLocation (getenv "TIMEZONE")) as [loc|e] eqn:Hl; [|eauto].
      exfalso. destruct Hbad as [?|[?|[[_ ?]|(_ & e & He)]]]; congruence.
    + exfalso. destruct Hbad as [?|[?|[[_ ?]|[? _]]]]; try congruence; contradiction.
Qed.

End StartupFacts.

(** The text [View] prints changes with the time of the call. *)
Lemma view_single_depends_on_clock :
  result (run (scripted 0 200 "")
            (View Reference.Render Reference.asString Reference.sprintV
                  Reference.parseRFC3339 Reference.UTC healthy) 0)
  <>
  result (run (scripted 0 200 "")
            (View Reference.Render Reference.asString Reference.sprintV
                  Reference.parseRFC3339 Reference.UTC healthy) 1000000000).
Proof. vm_compute. discriminate. Qed.

End SingleFacts.

(** ** More on the controller *)

Lemma index_insert_other {A} (s : list A) (i j : Z) (v : A) :
  0 <= i -> j <> i -> index (<[Z.to_nat i := v]> s) j = index s j.
Proof.
  intros Hi Hne. unfold index. destruct (decide (0 <= j)); [|reflexivity].
  apply list_lookup_insert_ne. lia.
Qed.

Section ControllerMore.

Variable Any : Type.
Variable ParseDuration : string -> Duration + string.

Local Abbreviation model := (model Any).
Local Abbreviation Msg := (Msg Any).

(** [Update] leaves the time zone, the quit flag and the context alone,
    but for the quit keys; a flag once set stays set. *)
Lemma Update_flags (m m' : model) (msg : Msg) (c : option Cmd) :
  Update ParseDuration m msg = Some (m', c) ->
  timezone m' = timezone m /\
  (quit m = true -> quit m' = true) /\
  (cancelled m = true -> cancelled m' = true).
Proof.
  destruct msg as [t i|r [err|] i|data [err|] i|key| |]; cbn [Update]; intros H;
    crack H; cbn; repeat split; try tauto.
  intros Hc. rewrite Hc. destruct (cancel m); reflexivity.
Qed.

(** X1. A message about one target changes nothing of what is stored for
    the other targets: their ping text, last error and health outcome read
    the same before and after. *)
Theorem other_targets_untouched (m m' : model) (msg : Msg) (c : option Cmd)
    (idx j : Z) :
  Update ParseDuration m msg = Some (m', c) ->
  msgIndex msg = Some idx ->
  j <> idx ->
  index (lastPing m') j = index (lastPing m) j /\
  index (lastError m') j = index (lastError m) j /\
  index (lastHealthGeneric m') j = index (lastHealthGeneric m) j.
Proof.
  intros HU Hmsg Hne.
  destruct msg as [t i|r [err|] i|data [err|] i|key| |];
    cbn in Hmsg; try discriminate; injection Hmsg as ->;
    cbn [Update] in HU; crack HU;
    repeat match goal with
           | H : assign _ _ _ = Some _ |- _ =>
               apply assign_inv in H; destruct H as [[? ?] ->]
           end;
    cbn; repeat split; try reflexivity;
    apply index_insert_other; assumption.
Qed.

(** X2. A successful ping of a target stores the ping text, empties the
    last error of the target and keeps every health outcome, that of the
    target included, as it was. *)
Theorem ping_success_records (m : model) (idx : Z) (r : string) :
  wf m -> target m idx ->
  exists m' c,
    Update ParseDuration m (pingResultWithIndex r None idx) = Some (m', c) /\
    index (lastPing m') idx = Some r /\
    index (lastError m') idx = Some "" /\
    lastHealthGeneric m' = lastHealthGeneric m.
Proof.
  intros Hwf Hi. destruct (wf_slots Any m idx Hwf Hi) as (Hp & He & Hh).
  assert (HU : exists c,
             Update ParseDuration m (pingResultWithIndex r None idx)
             = Some (afterPing m idx r, c)).
  { destruct (index_in_range (websites m) idx Hi) as [w Hw].
    destruct (health_path_cases Any m idx) as [Hnc|[he Hc]]; [apply Hi| |].
    - eexists. apply Update_ping_success_plain; assumption.
    - eexists. eapply Update_ping_success_health; eassumption. }
  destruct HU as [c HU]. exists (afterPing m idx r), c.
  split; [exact HU|]. cbn.
  repeat split; apply index_insert_eq; assumption.
Qed.

(** X3. A successful health check stores the decoded object for the target
    and nothing else: the last errors and the ping texts stay as they
    were, so an error recorded before is still shown. *)
Theorem health_success_records (m : model) (idx : Z)
    (data : option (gmap string Any)) :
  wf m -> target m idx ->
  exists m' c,
    Update ParseDuration m (healthResultGenericWithIndex data None idx)
      = Some (m', c) /\
    index (lastHealthGeneric m') idx = Some data /\
    lastError m' = lastError m /\
    lastPing m' = lastPing m.
Proof.
  intros Hwf Hi. destruct (wf_slots Any m idx Hwf Hi) as (Hp & He & Hh).
  eexists _, _. split; [apply Update_health_success; assumption|].
  cbn. repeat split. apply index_insert_eq; assumption.
Qed.

(** X4. [Update] returns [tea.Quit] exactly for the keys [ctrl+c] and [q];
    the state it then returns is the old one with the quit flag set and,
    when there is a cancel function, the context cancelled. *)
Theorem quit_only_on_quit_keys (m m' : model) (msg : Msg) :
  Update ParseDuration m msg = Some (m', Some Quit) <->
  exists key, msg = KeyMsg key /\ (key = "ctrl+c" \/ key = "q") /\
              m' = set_quit Any m.
Proof.
  split.
  - destruct msg as [t i|r [err|] i|data [err|] i|key| |]; cbn [Update];
      intros H; crack H; try discriminate.
    injection H as <-. eauto.
  - intros (key & -> & Hk & ->). cbn [Update].
    destruct (decide _) as [_|Hn]; [reflexivity | contradiction].
Qed.

(** X5. Along any sequence of messages the configuration of the state (the
    websites, the schedule, the health paths and the time zone) never
    changes, a well-formed state stays well formed, and at most one command
    is returned per message. *)
Theorem feed_configuration_fixed (msgs : list Msg) (m m' : model)
    (cmds : list Cmd) :
  feed ParseDuration m msgs = Some (m', cmds) ->
  websites m' = websites m /\
  schedule m' = schedule m /\
  healthEndpoint m' = healthEndpoint m /\
  timezone m' = timezone m /\
  (wf m -> wf m') /\
  (length cmds <= length msgs)%nat.
Proof.
  revert m m' cmds. induction msgs as [|msg msgs IH]; intros m m' cmds H.
  - cbn in H. injection H as <- <-.
    do 4 (split; [reflexivity|]). split; [auto | cbn; lia].
  - cbn [feed] in H.
    destruct (Update ParseDuration m msg) as [[m1 c]|] eqn:HU;
      cbn [mbind option_bind] in H; [|discriminate].
    destruct (feed ParseDuration m1 msgs) as [[m2 cs]|] eqn:HF;
      cbn [mbind option_bind] in H; [|discriminate].
    injection H as <- <-.
    destruct (Update_frame Any ParseDuration m m1 msg c HU)
      as (Hs & Hw & Hh & Hwf & _).
    destruct (Update_flags m m1 msg c HU) as (Ht & _ & _).
    destruct (IH m1 m2 cs HF) as (Hw2 & Hs2 & Hh2 & Ht2 & Hwf2 & Hl).
    do 4 (split; [congruence|]). split; [tauto|].
    destruct c; cbn [length]; lia.
Qed.

(** X6. Quitting is final: along any sequence of messages a quit flag that
    is set stays set, and a cancelled context stays cancelled. *)
Theorem cancellation_is_final (msgs : list Msg) (m m' : model)
    (cmds : list Cmd) :
  feed ParseDuration m msgs = Some (m', cmds) ->
  (quit m = true -> quit m' = true) /\
  (cancelled m = true -> cancelled m' = true).
Proof.
  revert m m' cmds. induction msgs as [|msg msgs IH]; intros m m' cmds H.
  - cbn in H. injection H as <- <-. auto.
  - cbn [feed] in H.
    destruct (Update ParseDuration m msg) as [[m1 c]|] eqn:HU;
      cbn [mbind option_bind] in H; [|discriminate].
    destruct (feed ParseDuration m1 msgs) as [[m2 cs]|] eqn:HF;
      cbn [mbind option_bind] in H; [|discriminate].
    injection H as <- <-.
    destruct (Update_flags m m1 msg c HU) as (_ & Hq & Hc).
    destruct (IH m1 m2 cs HF) as (Hq2 & Hc2). auto.
Qed.


End ControllerMore.

Section Monitoring.

Variable Any : Type.
Variable unmarshalObject : string -> option (gmap string Any) + string.

(** X8. Whatever message the body of a command returns, it is of the kind
    of the command and about the target the command was built for: a ping
    returns a ping result, a health check a health result and a timer a
    tick, each with the index of the command, on the error paths as on the
    others.  (Whether the body returns at all is the world's affair:
    nothing here bounds the time a request takes.) *)
Theorem command_messages_keep_target (c : Cmd) (idx : Z) :
  scheduledFor c = Some idx ->
  exists body,
    call unmarshalObject c = Some body /\
    forall W (h : forall X, Event Any X -> W -> X * W) (w : W) (msg : Msg Any),
      result (run h body w) = Returned msg ->
      msgIndex msg = Some idx /\
      match c with
      | PingClosure _ _ => exists r e, msg = pingResultWithIndex r e idx
      | HealthClosure _ _ _ =>
          exists d e, msg = healthResultGenericWithIndex d e idx
      | SleepClosure _ _ => exists t, msg = tickMsgWithIndex t idx
      | Quit | Batch _ => False
      end.
Proof.
  intros Hc.
  destruct c as [ws i|ws he i|dur i| |cmds]; cbn in Hc; try discriminate;
    injection Hc as ->; eexists; (split; [reflexivity|]); intros W h w msg Hmsg.
  - destruct (ping_answers_target Any h ws idx w) as (r & e & Hr).
    rewrite Hr in Hmsg. injection Hmsg as <-. split; [reflexivity | eauto].
  - destruct (health_answers_target Any unmarshalObject h ws he idx w)
      as (d & e & Hr).
    rewrite Hr in Hmsg. injection Hmsg as <-. split; [reflexivity | eauto].
  - destruct (sleep_then_tick Any h dur idx w) as (t & Hr & _).
    rewrite Hr in Hmsg. injection Hmsg as <-. split; [reflexivity | eauto].
Qed.

End Monitoring.

(** ** More on the endpoint checker *)

Section CheckerMore.

Variable Any : Type.
Variable unmarshalObject : string -> option (gmap string Any) + string.

#[local] Existing Instances IO_ret IO_bind.

Lemma trace_Vis {A W X} (h : forall X, Event Any X -> W -> X * W)
    (e : Event Any X) (k : X -> IO Any A) (w : W) :
  trace (run h (Vis e k) w) =
  MkCall e :: trace (run h (k (fst (h _ e w))) (snd (h _ e w))).
Proof.
  rewrite (run_Vis Any). destruct (h _ e w) as [x w1]. cbn [fst snd].
  destruct (run h (k x) w1) as [[o t] w2]. reflexivity.
Qed.

(** X9. A ping reads the clock and dials [tcp] to port 80 of the website
    with a timeout of five seconds.  When the dial fails, the result
    carries the error and an empty text, and nothing more is asked of the
    world.  When it succeeds, the connection is closed, the clock is read
    again and the result carries no error and a text, never empty, that
    names the website and the whole milliseconds between the readings. *)
Theorem ping_outcomes {W} (h : forall X, Event Any X -> W -> X * W)
    (w0 w1 w2 : W) (website : string) (idx : Z) (t0 : Time)
    (ans : nat + string) :
  h _ NowE w0 = (t0, w1) ->
  h _ (DialE 5000000000 "tcp" (JoinHostPort website "80")) w1 = (ans, w2) ->
  match ans with
  | inr err =>
      run h (pingBody website idx) w0 =
      (Returned (pingResultWithIndex "" (Some err) idx),
       [MkCall NowE;
        MkCall (DialE 5000000000 "tcp" (JoinHostPort website "80"))],
       w2)
  | inl conn =>
      forall (u : unit) (w3 w4 : W) (t1 : Time),
        h _ (CloseConnE conn) w2 = (u, w3) ->
        h _ NowE w3 = (t1, w4) ->
        exists text,
          text = "Ping to " +:+ website +:+ ":" +:+ nl +:+
                 "  TCP connect successful" +:+ nl +:+
                 "  Time: " +:+ itoa (Z.quot (t1 - t0) 1000000) +:+ " ms" /\
          text <> "" /\
          run h (pingBody website idx) w0 =
          (Returned (pingResultWithIndex text None idx),
           [MkCall NowE;
            MkCall (DialE 5000000000 "tcp" (JoinHostPort website "80"));
            MkCall (CloseConnE conn); MkCall NowE],
           w4)
  end.
Proof.
  intros Hnow Hdial. unfold pingBody.
  cbn [mbind IO_bind io_bind trigger].
  destruct ans as [conn|err].
  - intros u w3 w4 t1 Hclose Hnow2. eexists. split; [reflexivity|].
    split; [discriminate|].
    rewrite (run_Vis Any), Hnow. cbn [fst snd mbind IO_bind io_bind trigger].
    rewrite (run_Vis Any).
    change (5 * Second) with 5000000000.
    change DefaultTCPTimeout with 5000000000. change DefaultTCPPort with "80".
    rewrite Hdial. cbn [fst snd mbind IO_bind io_bind trigger].
    rewrite (run_Vis Any), Hclose. cbn [fst snd mbind IO_bind io_bind trigger].
    rewrite (run_Vis Any), Hnow2. reflexivity.
  - rewrite (run_Vis Any), Hnow. cbn [fst snd mbind IO_bind io_bind trigger].
    rewrite (run_Vis Any).
    change DefaultTCPTimeout with 5000000000. change DefaultTCPPort with "80".
    rewrite Hdial. reflexivity.
Qed.

(** X10. A health check passes transport errors on as they are.  When the
    request cannot be built, nothing is sent; when sending fails, nothing
    is read or closed; when reading the body fails, the body is still
    closed.  In each case the result carries the error and no object. *)
Theorem health_transport_errors {W} (h : forall X, Event Any X -> W -> X * W)
    (w0 w1 : W) (website he : string) (idx : Z) (ans : Request + string) :
  he <> "" ->
  h _ (NewRequestE "GET" ("https://" +:+ website +:+ he)) w0 = (ans, w1) ->
  match ans with
  | inr err =>
      run h (healthBody unmarshalObject website he idx) w0 =
      (Returned (healthResultGenericWithIndex None (Some err) idx),
       [MkCall (NewRequestE "GET" ("https://" +:+ website +:+ he))], w1)
  | inl req =>
      forall (w2 : W) (sent : Response + string),
        h _ (DoE req) w1 = (sent, w2) ->
        match sent with
        | inr err =>
            run h (healthBody unmarshalObject website he idx) w0 =
            (Returned (healthResultGenericWithIndex None (Some err) idx),
             [MkCall (NewRequestE "GET" ("https://" +:+ website +:+ he));
              MkCall (DoE req)], w2)
        | inl resp =>
            forall (w3 w4 : W) (err : string) (u : unit),
              h _ (ReadAllE (Body resp)) w2 = (inr err, w3) ->
              h _ (CloseBodyE (Body resp)) w3 = (u, w4) ->
              run h (healthBody unmarshalObject website he idx) w0 =
              (Returned (healthResultGenericWithIndex None (Some err) idx),
               [MkCall (NewRequestE "GET" ("https://" +:+ website +:+ he));
                MkCall (DoE req); MkCall (ReadAllE (Body resp));
                MkCall (CloseBodyE (Body resp))], w4)
        end
  end.
Proof.
  intros Hne Hreq. unfold healthBody.
  destruct (decide (he = "")) as [|_]; [contradiction|].
  cbn [mbind IO_bind io_bind trigger]. change HTTPSScheme with "https://".
  destruct ans as [req|err].
  - intros w2 [resp|err] Hdo.
    + intros w3 w4 err u Hread Hclose.
      rewrite (run_Vis Any), Hreq. cbn [fst snd mbind IO_bind io_bind trigger].
      rewrite (run_Vis Any), Hdo. cbn [fst snd mbind IO_bind io_bind trigger].
      rewrite (run_Vis Any), Hread. cbn [fst snd mbind IO_bind io_bind trigger].
      rewrite (run_Vis Any), Hclose. reflexivity.
    + rewrite (run_Vis Any), Hreq. cbn [fst snd mbind IO_bind io_bind trigger].
      rewrite (run_Vis Any), Hdo. reflexivity.
  - rewrite (run_Vis Any), Hreq. reflexivity.
Qed.

(** X11. Once a health check has sent its request and got a response, it
    reads the body once and closes it once, whatever the status and
    whatever the decoder says of the body: the request is sent once and
    never again, and the body is closed on every path. *)
Theorem health_single_request {W} (h : forall X, Event Any X -> W -> X * W)
    (w0 w1 w2 : W) (website he : string) (idx : Z)
    (req : Request) (resp : Response) :
  he <> "" ->
  h _ (NewRequestE "GET" ("https://" +:+ website +:+ he)) w0 = (inl req, w1) ->
  h _ (DoE req) w1 = (inl resp, w2) ->
  trace (run h (healthBody unmarshalObject website he idx) w0) =
  [MkCall (NewRequestE "GET" ("https://" +:+ website +:+ he));
   MkCall (DoE req); MkCall (ReadAllE (Body resp));
   MkCall (CloseBodyE (Body resp))].
Proof.
  intros Hne Hreq Hdo. unfold healthBody.
  destruct (decide (he = "")) as [|_]; [contradiction|].
  cbn [mbind IO_bind io_bind trigger]. change HTTPSScheme with "https://".
  rewrite trace_Vis, Hreq. cbn [fst snd mbind IO_bind io_bind trigger].
  rewrite trace_Vis, Hdo. cbn [fst snd mbind IO_bind io_bind trigger].
  rewrite trace_Vis. do 3 f_equal.
  destruct (fst (h _ (ReadAllE (Body resp)) w2)) as [body|err].
  - destruct (decide _).
    + cbn [fst snd mbind IO_bind io_bind trigger]. rewrite trace_Vis. reflexivity.
    + destruct (unmarshalObject body); cbn [fst snd mbind IO_bind io_bind trigger]; rewrite trace_Vis;
        reflexivity.
  - cbn [fst snd mbind IO_bind io_bind trigger]. rewrite trace_Vis. reflexivity.
Qed.

End CheckerMore.

(** ** More on the presenter *)

Lemma str_app_cons (x : ascii) (a b : string) :
  String x a +:+ b = String x (a +:+ b).
Proof. reflexivity. Qed.

Lemma str_app_assoc (a b c : string) : (a +:+ b) +:+ c = a +:+ (b +:+ c).
Proof.
  induction a as [|x a IH]; [reflexivity|]. now rewrite !str_app_cons, IH.
Qed.

Lemma str_app_nil_r (a : string) : a +:+ "" = a.
Proof.
  induction a as [|x a IH]; [reflexivity|]. now rewrite str_app_cons, IH.
Qed.

Lemma extends_refl (b : string) : extends b b.
Proof. exists "". now rewrite str_app_nil_r. Qed.

Lemma extends_app (b s y : string) : extends b s -> extends b (s +:+ y).
Proof. intros [x ->]. exists (x +:+ y). apply str_app_assoc. Qed.

Lemma extends_trans (a b c : string) : extends a b -> extends b c -> extends a c.
Proof. intros [x ->] [y ->]. exists (x +:+ y). apply str_app_assoc. Qed.

Lemma contains_here (p x q : string) : contains x (p +:+ x +:+ q).
Proof. exists p, q. reflexivity. Qed.

Lemma contains_app_r (x s y : string) : contains x s -> contains x (s +:+ y).
Proof.
  intros (p & q & ->). exists p, (q +:+ y).
  now rewrite !str_app_assoc.
Qed.

Lemma contains_app_l (x s y : string) : contains x s -> contains x (y +:+ s).
Proof.
  intros (p & q & ->). exists (y +:+ p), q. now rewrite !str_app_assoc.
Qed.

Lemma contains_extends (x b s : string) :
  contains x b -> extends b s -> contains x s.
Proof. intros Hc [y ->]. now apply contains_app_r. Qed.

Section PresenterMore.

Variable Any : Type.
Variable Render : Style -> string -> string.
Variable asString : Any -> option string.
Variable sprintV : Any -> string.
Variable parseRFC3339 : string -> option Time.
Variable Local : Location.

Local Abbreviation IO := (IO Any).
Local Abbreviation model := (model Any).
#[local] Existing Instances IO_ret IO_bind.

Lemma post_bind {A B} (P : B -> Prop) (Q : A -> Prop) (p : IO A) (f : A -> IO B) :
  post Q p -> (forall a, Q a -> post P (f a)) -> post P (p ≫= f).
Proof.
  intros Hp Hf. induction Hp as [a Ha|X e k Hk IH];
    cbn [mbind IO_bind io_bind] in *.
  - apply Hf. exact Ha.
  - constructor. exact IH.
Qed.

Lemma post_run {A W} (P : A -> Prop) (p : IO A)
    (h : forall X, Event Any X -> W -> X * W) (w : W) :
  post P p -> exists a, result (run h p w) = Returned a /\ P a.
Proof.
  intros Hp. revert w. induction Hp as [a Ha|X e k Hk IH]; intros w.
  - exists a. split; [reflexivity | exact Ha].
  - rewrite (result_Vis Any). apply IH.
Qed.

Lemma post_at {A} (s : list A) (i : Z) (x : A) :
  index s i = Some x -> post (fun y => y = x) (at_ (Any:=Any) s i).
Proof. intros H. unfold at_. rewrite H. now constructor. Qed.

Lemma at_Some {A} (s : list A) (i : Z) (x : A) :
  index s i = Some x -> at_ (Any:=Any) s i = Ret x.
Proof. intros H. unfold at_. now rewrite H. Qed.

Lemma post_trigger {X} (e : Event Any X) : post (fun _ => True) (trigger e).
Proof. constructor. intros x. now constructor. Qed.

Lemma silent_bind {A B} (p : IO A) (f : A -> IO B) :
  silent p -> (forall a, p = Ret a -> silent (f a)) -> silent (p ≫= f).
Proof.
  intros Hp Hf. destruct Hp as [a|]; cbn [mbind IO_bind io_bind].
  - now apply Hf.
  - constructor.
Qed.

Lemma silent_run {A} (p : IO A) :
  silent p ->
  exists o, forall W (h : forall X, Event Any X -> W -> X * W) (w : W),
    run h p w = (o, [], w).
Proof. intros [a|]; eexists; intros W h w; reflexivity. Qed.

Lemma silent_at {A} (s : list A) (i : Z) : silent (at_ (Any:=Any) s i).
Proof. unfold at_. destruct (index s i); constructor. Qed.

Lemma at_Ret {A} (s : list A) (i : Z) (x : A) :
  at_ (Any:=Any) s i = Ret x -> index s i = Some x.
Proof. unfold at_. destruct (index s i); [intros [= ->]; reflexivity | discriminate]. Qed.

(** The health section of a website extends the text. *)
Lemma health_stage_post (m : model) (b : string) (i : Z)
    (lh : option (gmap string Any)) :
  0 <= i -> index (lastHealthGeneric m) i = Some lh ->
  post (extends b)
    (if decide (len (healthEndpoint m) > i) then
       he ← at_ (healthEndpoint m) i;
       if decide (he <> "") then
         lh ← at_ (lastHealthGeneric m) i;
         match lh with
         | Some _ =>
             lh' ← at_ (lastHealthGeneric m) i;
             s ← match lh' with
                 | Some data =>
                     renderHealthSection Render asString sprintV parseRFC3339
                       data (timezone m)
                 | None => Ret (Render sectionTitle "Health Endpoint:")
                 end;
             Ret (b +:+ nl +:+ s +:+ nl)
         | None => Ret b
         end
       else Ret b
     else Ret b).
Proof.
  intros Hi Hlh. destruct (decide _) as [Hlen|_];
    [|constructor; apply extends_refl].
  destruct (index_in_range (healthEndpoint m) i) as [he Hhe]; [lia|].
  unfold at_. rewrite Hhe, Hlh. cbn [mbind IO_bind io_bind].
  destruct (decide _) as [_|_]; [|constructor; apply extends_refl].
  destruct lh as [data|]; [|constructor; apply extends_refl].
  cbn [mbind IO_bind io_bind]. unfold renderHealthSection.
  cbn [mbind IO_bind io_bind trigger]. constructor. intros entries.
  constructor. eexists. reflexivity.
Qed.

(** One website: the text is extended, the website is named, and a last
    error that is not empty is shown. *)
Lemma viewWebsite_post (m : model) (b : string) (i : Z) (website : string)
    (lp le : string) (lh : option (gmap string Any)) :
  0 <= i ->
  index (lastPing m) i = Some lp ->
  index (lastError m) i = Some le ->
  index (lastHealthGeneric m) i = Some lh ->
  post (fun s =>
          extends b s /\
          contains (renderSection Render "Website:" website) s /\
          (le <> "" -> contains (Render errorStyle ("FAILED: " +:+ le)) s))
       (viewWebsite Render asString sprintV parseRFC3339 Local m b i website).
Proof.
  intros Hi Hlp Hle Hlh. unfold viewWebsite. cbv zeta.
  rewrite (at_Some _ _ _ Hlp), (at_Some _ _ _ Hle).
  cbn [mbind IO_bind io_bind].
  set (site := renderSection Render "Website:" website).
  set (b1 := (b +:+ site +:+ nl) +:+ renderSection Render "Schedule:" (schedule m) +:+ nl).
  assert (Hb1 : extends b b1 /\ contains site b1).
  { split.
    - subst b1. apply extends_app. exists (site +:+ nl). reflexivity.
    - subst b1. apply contains_app_r. apply contains_here. }
  destruct Hb1 as [Hext1 Hsite1].
  apply post_bind with (Q := fun b2 => extends b1 b2).
  { destruct (decide _) as [_|_]; [|constructor; apply extends_refl].
    cbn [mbind IO_bind io_bind trigger]. constructor. intros now.
    constructor.
    repeat first [apply extends_refl | apply extends_app]. }
  intros b2 Hext2.
  apply post_bind with (Q := fun b3 => extends b2 b3).
  { apply health_stage_post with (lh := lh); assumption. }
  intros b3 Hext3.
  apply post_bind with
    (Q := fun b4 => extends b3 b4 /\
                    (le <> "" -> contains (Render errorStyle ("FAILED: " +:+ le)) b4)).
  { destruct (decide _) as [Hne|He].
    - constructor. split.
      + eexists. reflexivity.
      + intros _. apply contains_app_l. apply contains_app_l.
        exists "", nl. reflexivity.
    - constructor. split; [apply extends_refl | intros Hne; contradiction]. }
  intros b4 [Hext4 Herr].
  assert (Hb4 : extends b b4)
    by (eapply extends_trans; [exact Hext1|];
        eapply extends_trans; [exact Hext2|];
        eapply extends_trans; [exact Hext3 | exact Hext4]).
  assert (Hs4 : contains site b4)
    by (eapply contains_extends; [exact Hsite1|];
        eapply extends_trans; [exact Hext2|];
        eapply extends_trans; [exact Hext3 | exact Hext4]).
  destruct (decide _) as [_|_]; constructor.
  - split; [now apply extends_app|].
    split; [now apply contains_app_r|].
    intros Hne. apply contains_app_r. auto.
  - auto.
Qed.

Lemma post_mono {A} (P Q : A -> Prop) (p : IO A) :
  (forall a, P a -> Q a) -> post P p -> post Q p.
Proof.
  intros HPQ Hp. induction Hp as [a Ha|X e k Hk IH]; constructor; auto.
Qed.

(** The loop over the websites [ws] that follow [pre]: the text is
    extended, and each of these websites is named and has its last error
    shown. *)
Lemma viewLoop_post (m : model) (ws pre : list string) (b : string) :
  wf m -> websites m = (pre ++ ws)%list ->
  post (fun s =>
          extends b s /\
          forall (k : nat) (w : string), ws !! k = Some w ->
            contains (renderSection Render "Website:" w) s /\
            forall e, index (lastError m) (len pre + Z.of_nat k) = Some e ->
                      e <> "" ->
                      contains (Render errorStyle ("FAILED: " +:+ e)) s)
       (viewLoop Render asString sprintV parseRFC3339 Local m b (len pre) ws).
Proof.
  intros Hwf. revert pre b. induction ws as [|w ws IH]; intros pre b Hws.
  - cbn [viewLoop]. constructor. split; [apply extends_refl|].
    intros k w Hk. rewrite lookup_nil in Hk. discriminate.
  - cbn [viewLoop].
    assert (Hi : target m (len pre)).
    { unfold target, len. rewrite Hws, length_app. cbn [length]. lia. }
    destruct (wf_slots Any m (len pre) Hwf Hi) as (Hp & He & Hh).
    destruct (index_in_range _ _ Hp) as [lp Hlp].
    destruct (index_in_range _ _ He) as [le Hle].
    destruct (index_in_range _ _ Hh) as [lh Hlh].
    eapply post_bind.
    { apply viewWebsite_post with (lp := lp) (le := le) (lh := lh);
        [apply Hi | assumption..]. }
    cbn beta. intros b' (Hext & Hsite & Herr).
    assert (Hlen : len pre + 1 = len (pre ++ [w])%list).
    { unfold len. rewrite length_app. cbn [length]. lia. }
    rewrite Hlen. eapply post_mono; [|apply (IH (pre ++ [w])%list b')].
    + cbn beta. intros s [Hext' Hrest]. split; [eapply extends_trans; eassumption|].
      intros [|k] w' Hk.
      * cbn in Hk. injection Hk as <-.
        split; [eapply contains_extends; eassumption|].
        intros e Hie Hne. rewrite Z.add_0_r, Hle in Hie. injection Hie as <-.
        eapply contains_extends; [apply Herr; exact Hne | exact Hext'].
      * cbn in Hk. destruct (Hrest k w' Hk) as [Hs' He'].
        split; [exact Hs'|]. intros e Hie Hne. apply He'; [|exact Hne].
        rewrite <- Hlen. rewrite <- Hie. f_equal. lia.
    + rewrite Hws, <- app_assoc. reflexivity.
Qed.

(** X12. For a well-formed state [View] never panics, in any world.  The
    text it returns starts with the header and two new lines and ends with
    the footer; it names every website, and it shows the last error of
    every target that has one, as "FAILED: <error>". *)
Theorem view_shows_websites_and_errors (m : model) :
  wf m ->
  forall W (h : forall X, Event Any X -> W -> X * W) (w : W),
  exists s,
    result (run h (View Render asString sprintV parseRFC3339 Local m) w)
      = Returned s /\
    (exists mid,
       s = Render headerStyle " Vivteno - Website Health Monitor " +:+ nl +:+ nl
           +:+ mid +:+ Render footerStyle "Press q or Ctrl+C to quit.") /\
    (forall j site, index (websites m) j = Some site ->
       contains (renderSection Render "Website:" site) s) /\
    (forall j e, index (lastError m) j = Some e -> e <> "" ->
       contains (Render errorStyle ("FAILED: " +:+ e)) s).
Proof.
  intros Hwf W h w. unfold View. cbv zeta.
  set (b0 := Render headerStyle " Vivteno - Website Health Monitor " +:+ nl +:+ nl).
  set (foot := Render footerStyle "Press q or Ctrl+C to quit.").
  pose proof (viewLoop_post m (websites m) [] b0 Hwf eq_refl) as Hloop.
  change (len (@nil string)) with 0 in Hloop.
  eapply post_bind with (P := fun s =>
      (exists mid, s = b0 +:+ mid +:+ foot) /\
      (forall j site, index (websites m) j = Some site ->
         contains (renderSection Render "Website:" site) s) /\
      (forall j e, index (lastError m) j = Some e -> e <> "" ->
         contains (Render errorStyle ("FAILED: " +:+ e)) s)) in Hloop.
  - destruct (post_run _ _ h w Hloop) as (s & Hs & (mid & Hmid) & Hsites & Herrs).
    exists s. split; [exact Hs|]. split; [|split; assumption].
    exists mid. rewrite Hmid. subst b0. now rewrite !str_app_assoc.
  - cbn beta. intros b [[x ->] Hall]. constructor. split; [|split].
    + exists x. now rewrite str_app_assoc.
    + intros j site Hj. apply contains_app_r.
      apply index_Some_range in Hj as Hr. unfold index in Hj.
      destruct (decide (0 <= j)); [|discriminate].
      apply (Hall (Z.to_nat j) site Hj).
    + intros j e Hj Hne. apply contains_app_r.
      apply index_Some_range in Hj as Hr.
      destruct Hwf as (_ & Hlen & _). unfold len in Hr. rewrite Hlen in Hr.
      destruct (lookup_lt_is_Some_2 (websites m) (Z.to_nat j)) as [site Hsite];
        [lia|].
      apply (Hall (Z.to_nat j) site Hsite); [|exact Hne].
      rewrite Z.add_0_l, Z2Nat.id; [exact Hj | lia].
Qed.

Lemma viewWebsite_silent (m : model) (b : string) (i : Z) (website : string) :
  (forall s, index (lastPing m) i = Some s -> s = "") ->
  (forall d, index (lastHealthGeneric m) i = Some d -> d = None) ->
  silent (viewWebsite Render asString sprintV parseRFC3339 Local m b i website).
Proof.
  intros Hping Hhealth. unfold viewWebsite. cbv zeta.
  apply silent_bind; [apply silent_at|]. intros lp Hlp%at_Ret.
  rewrite (Hping lp Hlp).
  destruct (decide ("" <> "")) as [Hn|_]; [contradiction|].
  cbn [mbind IO_bind io_bind].
  apply silent_bind.
  { destruct (decide _); [|constructor].
    apply silent_bind; [apply silent_at|]. intros he _.
    destruct (decide _); [|constructor].
    apply silent_bind; [apply silent_at|]. intros lh Hlh%at_Ret.
    rewrite (Hhealth lh Hlh). constructor. }
  intros b3 _.
  apply silent_bind; [apply silent_at|]. intros le _.
  apply silent_bind.
  { destruct (decide _); [|constructor].
    apply silent_bind; [apply silent_at|]. intros le' _. constructor. }
  intros b4 _. destruct (decide _); constructor.
Qed.

Lemma viewLoop_silent (m : model) (ws : list string) (b : string) (i : Z) :
  (forall j s, index (lastPing m) j = Some s -> s = "") ->
  (forall j d, index (lastHealthGeneric m) j = Some d -> d = None) ->
  silent (viewLoop Render asString sprintV parseRFC3339 Local m b i ws).
Proof.
  intros Hping Hhealth. revert b i.
  induction ws as [|w ws IH]; intros b i; cbn [viewLoop]; [constructor|].
  apply silent_bind; [apply viewWebsite_silent; eauto|].
  intros b' _. apply IH.
Qed.

(** X13. In a state that holds no ping text and no health object, as at
    start-up, [View] asks nothing of the world: it reads no clock, its
    outcome is the same in every world and it leaves the world as it is. *)
Theorem view_silent_without_observations (m : model) :
  (forall j s, index (lastPing m) j = Some s -> s = "") ->
  (forall j d, index (lastHealthGeneric m) j = Some d -> d = None) ->
  exists o, forall W (h : forall X, Event Any X -> W -> X * W) (w : W),
    run h (View Render asString sprintV parseRFC3339 Local m) w = (o, [], w).
Proof.
  intros Hping Hhealth. apply silent_run. unfold View. cbv zeta.
  apply silent_bind; [apply viewLoop_silent; assumption|].
  intros b _. constructor.
Qed.

End PresenterMore.

(** ** More on validation *)

Lemma str_app_eq_nil (a b : string) : a +:+ b = "" -> a = "" /\ b = "".
Proof. destruct a; [auto | discriminate]. Qed.

Lemma lang_nil_nullable (r : regex) (s : string) :
  lang r s -> s = "" -> nullable r = true.
Proof.
  induction 1 as [|p c Hc|r1 r2 s1 s2 H1 IH1 H2 IH2|r1 r2 s H IH|r1 r2 s H IH
                 |r|r s1 s2 H1 IH1 H2 IH2]; intros Hs; cbn [nullable];
    try reflexivity; try discriminate.
  - apply str_app_eq_nil in Hs as [-> ->]. now rewrite IH1, IH2.
  - now rewrite IH.
  - rewrite IH by assumption. apply orb_true_r.
Qed.

Lemma nullable_lang (r : regex) : nullable r = true <-> lang r "".
Proof.
  split; [|intros H; now apply (lang_nil_nullable r "")].
  induction r as [| |p|r1 IH1 r2 IH2|r1 IH1 r2 IH2|r IH]; cbn [nullable];
    intros H; try discriminate.
  - constructor.
  - apply andb_true_iff in H as [H1 H2].
    change "" with ("" +:+ ""). constructor; auto.
  - apply orb_true_iff in H as [H|H]; [apply lang_AltL | apply lang_AltR]; auto.
  - constructor.
Qed.

Lemma lang_deriv (r : regex) (t : string) :
  lang r t -> forall c s, t = String c s -> lang (deriv c r) s.
Proof.
  induction 1 as [|p c0 Hc|r1 r2 s1 s2 H1 IH1 H2 IH2|r1 r2 s0 H IH|r1 r2 s0 H IH
                 |r|r s1 s2 H1 IH1 H2 IH2]; intros c s Hs; cbn [deriv];
    try discriminate.
  - injection Hs as -> <-. rewrite Hc. constructor.
  - destruct s1 as [|x s1].
    + cbn in Hs. apply nullable_lang in H1. rewrite H1.
      apply lang_AltR. now apply IH2.
    + rewrite str_app_cons in Hs. injection Hs as -> <-.
      assert (Hd : lang (RSeq (deriv c r1) r2) (s1 +:+ s2))
        by (constructor; [now apply IH1 | assumption]).
      destruct (nullable r1); [now apply lang_AltL | exact Hd].
  - apply lang_AltL. now apply IH.
  - apply lang_AltR. now apply IH.
  - destruct s1 as [|x s1].
    + cbn in Hs. now apply IH2.
    + rewrite str_app_cons in Hs. injection Hs as -> <-.
      constructor; [now apply IH1 | assumption].
Qed.

Lemma deriv_lang (r : regex) (c : ascii) (s : string) :
  lang (deriv c r) s -> lang r (String c s).
Proof.
  revert s. induction r as [| |p|r1 IH1 r2 IH2|r1 IH1 r2 IH2|r IH];
    intros s H; cbn [deriv] in H.
  - inversion H.
  - inversion H.
  - destruct (p c) eqn:Hp; inversion H; subst. now constructor.
  - assert (Hleft : forall t, lang (RSeq (deriv c r1) r2) t ->
                              lang (RSeq r1 r2) (String c t)).
    { intros t Ht. inversion Ht; subst. rewrite <- str_app_cons.
      constructor; [now apply IH1 | assumption]. }
    destruct (nullable r1) eqn:Hn; [|now apply Hleft].
    inversion H; subst; [now apply Hleft|].
    change (String c s) with ("" +:+ String c s).
    constructor; [now apply nullable_lang | now apply IH2].
  - inversion H; subst; [apply lang_AltL | apply lang_AltR]; auto.
  - inversion H; subst. rewrite <- str_app_cons.
    constructor; [now apply IH | assumption].
Qed.

(** The matcher accepts exactly the strings of the expression. *)
Lemma matchAnchored_lang (s : string) (r : regex) :
  matchAnchored r s = true <-> lang r s.
Proof.
  revert r. induction s as [|c s IH]; intros r; cbn [matchAnchored].
  - apply nullable_lang.
  - rewrite IH. split; [apply deriv_lang|].
    intros H. now apply (lang_deriv r (String c s)).
Qed.

Lemma lang_class_star (p : ascii -> bool) (r : regex) (s : string) :
  lang r s -> r = RStar (RClass p) ->
  Forall (fun c => p c = true) (list_ascii_of_string s).
Proof.
  induction 1 as [|q c0 Hc|r1 r2 s1 s2 H1 IH1 H2 IH2|r1 r2 s0 H IH|r1 r2 s0 H IH
                 |r|r s1 s2 H1 IH1 H2 IH2]; intros Hr; try discriminate.
  - constructor.
  - injection Hr as ->. inversion H1; subst. cbn. constructor; auto.
Qed.

Lemma class_star_lang (p : ascii -> bool) (s : string) :
  Forall (fun c => p c = true) (list_ascii_of_string s) ->
  lang (RStar (RClass p)) s.
Proof.
  induction s as [|c s IH]; cbn; intros H; [constructor|].
  inversion H; subst. change (String c s) with (String c "" +:+ s).
  constructor; [now constructor | auto].
Qed.

(** The strings of [[a-zA-Z0-9-]+] are the labels. *)
Lemma lang_label (s : string) : lang (RPlus (RClass hostClass)) s <-> okLabel s.
Proof.
  unfold RPlus, okLabel. split.
  - intros H. inversion H; subst.
    match goal with H1 : lang (RClass _) _ |- _ => inversion H1; subst end.
    rewrite str_app_cons. split; [discriminate|]. cbn. constructor; [assumption|].
    eapply lang_class_star; [eassumption | reflexivity].
  - intros [Hne H]. destruct s as [|c s]; [contradiction|].
    cbn in H. inversion H; subst.
    change (String c s) with (String c "" +:+ s).
    constructor; [now constructor | now apply class_star_lang].
Qed.

(** The strings of [([a-zA-Z0-9-]+\.)*], followed by a label, are the
    lists of labels joined by dots. *)
Lemma star_labels (r : regex) (s : string) :
  lang r s ->
  r = RStar (RSeq (RPlus (RClass hostClass)) (RClass (Ascii.eqb "."))) ->
  forall l, okLabel l ->
  exists labels, labels <> [] /\ Forall okLabel labels /\
                 s +:+ l = String.concat "." labels.
Proof.
  induction 1 as [|q c0 Hc|r1 r2 s1 s2 H1 IH1 H2 IH2|r1 r2 s0 H IH|r1 r2 s0 H IH
                 |r|r s1 s2 H1 IH1 H2 IH2]; intros Hr l Hl; try discriminate.
  - exists [l]. split; [discriminate|]. split; [now constructor | reflexivity].
  - injection Hr as ->.
    destruct (IH2 eq_refl l Hl) as (labels & Hne & Hall & Heq).
    inversion H1; subst.
    match goal with H : lang (RPlus _) _ |- _ => apply lang_label in H end.
    match goal with H : lang (RClass (Ascii.eqb _)) _ |- _ =>
      inversion H as [|p c Hc| | | | |]; subst end.
    apply Ascii.eqb_eq in Hc. subst c.
    destruct labels as [|x xs]; [contradiction|].
    eexists (_ :: x :: xs). split; [discriminate|].
    split; [constructor; eassumption|].
    rewrite !str_app_assoc, Heq. reflexivity.
Qed.

Lemma labels_lang (labels : list string) :
  labels <> [] -> Forall okLabel labels ->
  lang hostPattern (String.concat "." labels).
Proof.
  unfold hostPattern.
  induction labels as [|l labels IH]; intros Hne Hall; [contradiction|].
  inversion Hall as [|? ? Hl Hrest]; subst.
  destruct labels as [|x xs].
  - cbn. change l with ("" +:+ l). constructor; [constructor|].
    now apply lang_label.
  - assert (Hx : x :: xs <> []) by discriminate.
    specialize (IH Hx Hrest).
    change (String.concat "." (l :: x :: xs))
      with (l +:+ "." +:+ String.concat "." (x :: xs)).
    remember (String.concat "." (x :: xs)) as t eqn:Ht. clear Ht.
    inversion IH; subst.
    rewrite <- !str_app_assoc. constructor; [|assumption].
    constructor; [|assumption]. constructor.
    + now apply lang_label.
    + now constructor.
Qed.

Section ValidationMore.

Variable ParseIP : string -> bool.

(** X17. A host is accepted exactly when it is an IP literal or one or
    more labels joined by dots, each label being one or more letters,
    digits and hyphens: the empty string, an empty label (a leading, a
    trailing or a doubled dot) and any other character are refused. *)
Theorem hostname_shape (host : string) :
  isValidHostname ParseIP host = true <->
  ParseIP host = true \/
  exists labels, labels <> [] /\ Forall okLabel labels /\
                 host = String.concat "." labels.
Proof.
  unfold isValidHostname. destruct (ParseIP host); [split; auto|].
  rewrite matchAnchored_lang. split.
  - intros H. right. unfold hostPattern in H. inversion H; subst.
    match goal with H : lang (RPlus _) _ |- _ => apply lang_label in H end.
    eapply star_labels; [eassumption | reflexivity | assumption].
  - intros [H|(labels & Hne & Hall & ->)]; [discriminate|].
    now apply labels_lang.
Qed.

End ValidationMore.

(** ** More on start-up *)

Section StartupMore.

Variable Any : Type.
Variable ParseIP : string -> bool.
Variable ParseDuration : string -> Duration + string.
Variable LoadLocation : string -> Location + string.
Variable Local : Location.
Variable unmarshalStrings : string -> list string + string.
Variable quote : string -> string.

Local Abbreviation start :=
  (main ParseIP ParseDuration LoadLocation Local unmarshalStrings quote).

(** X15. With the rest of the configuration accepted, a [HEALTH_ENDPOINT]
    that decodes to an array of as many strings as there are websites is
    used as it is: the program starts with exactly these health paths, in
    this order. *)
Theorem health_endpoint_array_used (getenv : string -> string)
    (ws : list string) (sched : string) (loc : Location) (hs : list string) :
  restAccepted ParseIP ParseDuration LoadLocation Local unmarshalStrings
    getenv ws sched loc ->
  getenv "HEALTH_ENDPOINT" <> "" ->
  unmarshalStrings (getenv "HEALTH_ENDPOINT") = inl hs ->
  length hs = length ws ->
  start getenv = Run ws sched hs loc.
Proof.
  intros Hok Hne Hhs Hlen.
  rewrite (main_accepted ParseIP ParseDuration LoadLocation Local
             unmarshalStrings quote getenv ws sched loc Hok).
  unfold healthEndpointsOf.
  destruct (decide (getenv "HEALTH_ENDPOINT" <> "")) as [_|Hn]; [|contradiction].
  rewrite Hhs. unfold len.
  destruct (decide _) as [Hd|_]; [lia | reflexivity].
Qed.

(** X16. When [main] starts the program, the websites are those decoded
    from [PING_WEBSITE]; the schedule is [PING_SCHEDULE], or "10s" when
    that is empty; the location is [time.Local] when [TIMEZONE] is empty
    and the one [time.LoadLocation] gives for it otherwise. *)
Theorem started_with_defaults (getenv : string -> string)
    (ws : list string) (sched : string) (hs : list string) (loc : Location) :
  start getenv = Run ws sched hs loc ->
  unmarshalStrings (getenv "PING_WEBSITE") = inl ws /\
  (getenv "PING_SCHEDULE" = "" -> sched = "10s") /\
  (getenv "PING_SCHEDULE" <> "" -> sched = getenv "PING_SCHEDULE") /\
  (getenv "TIMEZONE" = "" -> loc = Local) /\
  (getenv "TIMEZONE" <> "" -> LoadLocation (getenv "TIMEZONE") = inl loc).
Proof.
  intros Hrun.
  destruct (main_cases ParseIP ParseDuration LoadLocation Local
              unmarshalStrings quote getenv)
    as [(out & Hm & _)|(ws' & loc' & hs' & Hm & Hok & _)];
    rewrite Hm in Hrun; [discriminate|].
  injection Hrun as -> <- -> ->.
  destruct Hok as (Hws & _ & _ & _ & _ & Hloc).
  split; [exact Hws|]. unfold effectiveSchedule.
  destruct (decide (getenv "PING_SCHEDULE" = "")) as [Hs|Hs];
    destruct (decide (getenv "TIMEZONE" <> "")) as [Ht|Ht];
    repeat split; intros; try contradiction; try reflexivity;
    try congruence.
Qed.

(** X18. [Init] issues exactly one command per website, in the order of
    the websites: the command at each index is the ping of the website at
    that index, carrying that index, and there is no other command. *)
Theorem Init_one_ping_per_website (m : model Any) :
  exists cmds,
    Init m = Batch cmds /\
    len cmds = len (websites m) /\
    forall idx c,
      index cmds idx = Some c <->
      exists website, index (websites m) idx = Some website /\
                      c = PingClosure website idx.
Proof.
  eexists. split; [reflexivity|]. split.
  - unfold len. now rewrite length_imap.
  - intros idx c. unfold index. destruct (decide (0 <= idx)) as [Hi|Hi].
    + rewrite list_lookup_imap.
      destruct (websites m !! Z.to_nat idx) as [w|]; cbn.
      * rewrite Z2Nat.id by assumption. unfold pingWebsiteCmdWithContext.
        split.
        -- intros [= <-]. eauto.
        -- intros (w' & [= <-] & ->). reflexivity.
      * split; [discriminate|]. intros (w' & Hw & _). discriminate.
    + split; [discriminate|]. intros (w' & Hw & _). discriminate.
Qed.

End StartupMore.

(** ** The two programs on one website *)

Section Refinement.

Import Projection.

Variable Any : Type.
Variable ParseDuration : string -> Duration + string.

Lemma schedulePing_project (s : string) (idx : Z) :
  projectCmd (schedulePing ParseDuration s idx)
  = Some (Single.schedulePing ParseDuration s).
Proof.
  unfold schedulePing, scheduleDuration, Single.schedulePing. cbn.
  destruct (ParseDuration s); reflexivity.
Qed.

(** X21. On a well-formed state with one website the program for several
    websites and the program for one website agree: for every message
    about the first website, and for every key, the first does not panic,
    and the state and the command it returns are, once the index is
    dropped, the state and the command the second returns. *)
Ltac finish_project s :=
  cbn; unfold project, Single.schedulePing, schedulePing, scheduleDuration;
  cbn; destruct (ParseDuration s); reflexivity.

Theorem first_website_as_single (m : model Any) (msg : Msg Any) :
  wf m -> length (websites m) = 1%nat -> aboutFirst msg ->
  exists m' c,
    Update ParseDuration m msg = Some (m', c) /\
    Single.Update ParseDuration (project m) (projectMsg msg)
      = (project m', c ≫= projectCmd).
Proof.
  destruct m as [ws s he lp le lh tz q cn cd].
  unfold wf, aboutFirst. cbn. intros (Hp & He & Hh) Hw Hmsg.
  rewrite Hw in Hp, He, Hh.
  destruct ws as [|w [|]]; try discriminate.
  destruct lp as [|p [|]]; try discriminate.
  destruct le as [|e [|]]; try discriminate.
  destruct lh as [|h [|]]; try discriminate.
  destruct msg as [t i|r [err|] i|data [err|] i|key| |]; cbn in Hmsg;
    try (destruct Hmsg as [Hi|Hi]; [injection Hi as ->|discriminate]).
  - eexists _, _. split; reflexivity.
  - eexists _, _. split; [reflexivity|].
    finish_project s.
  - destruct he as [|h0 he'].
    + eexists _, _. split; [reflexivity|].
      finish_project s.
    + set (m := {| websites := [w]; schedule := s; healthEndpoint := h0 :: he';
                   lastPing := [p]; lastError := [e]; lastHealthGeneric := [h];
                   timezone := tz; quit := q; cancel := cn; cancelled := cd |}).
      assert (Hwf : wf m) by (repeat split).
      assert (Ht : target m 0) by (unfold target, len; cbn; lia).
      destruct (decide (h0 <> "")) as [Hne|Hne].
      * eexists _, _. split.
        { apply (Update_ping_success_health Any ParseDuration m 0 r w h0 Hwf Ht);
            [reflexivity | split; [reflexivity | exact Hne]]. }
        unfold project. cbn.
        destruct (decide (h0 <> "")); [reflexivity | contradiction].
      * apply dec_stable in Hne. subst h0. eexists _, _. split.
        { apply (Update_ping_success_plain Any ParseDuration m 0 r Hwf Ht).
          right. reflexivity. }
        finish_project s.
  - eexists _, _. split; [reflexivity|].
    finish_project s.
  - eexists _, _. split; [reflexivity|].
    finish_project s.
  - cbn. destruct (decide (key = "ctrl+c" \/ key = "q")).
    + eexists _, _. split; reflexivity.
    + eexists _, _. split; reflexivity.
  - eexists _, _. split; reflexivity.
  - eexists _, _. split; reflexivity.
Qed.

End Refinement.

(** ** More on the one-website program *)

Section SingleMore.

Variable ParseDuration : string -> Duration + string.
Variable Local : Location.
Variable ParseIP : string -> bool.
Variable LoadLocation : string -> Location + string.
Variable quote : string -> string.

(** X22. When the program for one website starts, the website is
    [PING_WEBSITE], not empty and a valid host name; the schedule is one
    [isValidSchedule] accepts, "10s" when [PING_SCHEDULE] is empty; and
    the health path is [HEALTH_ENDPOINT] as it is, without any check. *)
Theorem single_started_checked (getenv : string -> string)
    (w s he : string) (loc : Location) :
  Single.main ParseDuration Local ParseIP LoadLocation quote getenv
    = Single.Run w s he loc ->
  w = getenv "PING_WEBSITE" /\ w <> "" /\
  isValidHostname ParseIP w = true /\
  isValidSchedule ParseDuration s = true /\
  (getenv "PING_SCHEDULE" = "" -> s = "10s") /\
  he = getenv "HEALTH_ENDPOINT".
Proof.
  unfold Single.main.
  destruct (decide (getenv "PING_WEBSITE" = "")) as [|Hw]; [discriminate|].
  destruct (isValidHostname ParseIP (getenv "PING_WEBSITE")) eqn:Hh; cbn [negb];
    [|discriminate].
  destruct (isValidSchedule ParseDuration
              (if decide (getenv "PING_SCHEDULE" = "") then "10s"
               else getenv "PING_SCHEDULE")) eqn:Hs; cbn [negb]; [|discriminate].
  destruct (if decide (getenv "TIMEZONE" <> "") then LoadLocation (getenv "TIMEZONE")
            else inl Local) as [l|e]; [|discriminate].
  intros [= <- <- <- <-]. repeat split; try assumption.
  intros Hempty. destruct (decide _); [reflexivity | contradiction].
Qed.

End SingleMore.

(** ** The health section *)

Lemma contains_concat (sep x : string) (l : list string) :
  In x l -> contains x (String.concat sep l).
Proof.
  induction l as [|a l IH]; [intros []|].
  intros [->|Hin].
  - destruct l as [|b l]; cbn [String.concat].
    + exists "", "". now rewrite str_app_nil_r.
    + exists "", (sep +:+ String.concat sep (b :: l)). reflexivity.
  - destruct l as [|b l]; [destruct Hin|].
    change (String.concat sep (a :: b :: l))
      with (a +:+ sep +:+ String.concat sep (b :: l)).
    apply contains_app_l, contains_app_l. now apply IH.
Qed.

Section HealthSection.

Variable Any : Type.
Variable Render : Style -> string -> string.
Variable asString : Any -> option string.
Variable sprintV : Any -> string.
Variable parseRFC3339 : string -> option Time.

(** X23. The health section starts with its title and shows the key of
    every entry of the object the runtime visits.  An entry named
    [timestamp], [time] or [date] whose value is a string in RFC 3339 form
    is shown as that instant in the display time zone; any other entry is
    shown as [%v] prints its value. *)
Theorem health_section_shows_entries {W}
    (h : forall X, Event Any X -> W -> X * W) (w w' : W)
    (data : gmap string Any) (loc : Location)
    (entries : list (string * Any)) :
  h _ (RangeE data) w = (entries, w') ->
  exists s,
    run h (renderHealthSection Render asString sprintV parseRFC3339
             data (Some loc)) w
      = (Returned s, [MkCall (RangeE data)], w') /\
    extends (Render sectionTitle "Health Endpoint:") s /\
    forall k v, In (k, v) entries ->
      contains (Render healthKeyStyle (k +:+ ":")) s /\
      (forall text t,
         k = "timestamp" \/ k = "time" \/ k = "date" ->
         asString v = Some text -> parseRFC3339 text = Some t ->
         contains (Render healthValueStyle (FormatDisplay loc t)) s) /\
      (k <> "timestamp" /\ k <> "time" /\ k <> "date" \/ asString v = None ->
         contains (Render healthValueStyle (sprintV v)) s).
Proof.
  intros Hrange. eexists. split.
  { unfold renderHealthSection. cbn [mbind IO_bind io_bind trigger].
    rewrite (run_Vis Any), Hrange. reflexivity. }
  split.
  { destruct entries as [|e es]; cbn [List.map String.concat].
    - apply extends_refl.
    - destruct (List.map _ es); eexists; reflexivity. }
  intros k v Hin.
  assert (Hline : contains
            (renderHealthLine Render asString sprintV parseRFC3339 (Some loc) (k, v))
            (String.concat nl
               (Render sectionTitle "Health Endpoint:"
                :: List.map (renderHealthLine Render asString sprintV
                               parseRFC3339 (Some loc)) entries))).
  { apply contains_concat. right. apply in_map_iff. exists (k, v). auto. }
  assert (Hpart : forall x,
            contains x (renderHealthLine Render asString sprintV parseRFC3339
                          (Some loc) (k, v)) ->
            contains x
              (String.concat nl
                 (Render sectionTitle "Health Endpoint:"
                  :: List.map (renderHealthLine Render asString sprintV
                                 parseRFC3339 (Some loc)) entries))).
  { intros x (p & q & Hx). destruct Hline as (p' & q' & ->). rewrite Hx.
    exists (p' +:+ p), (q +:+ q'). now rewrite !str_app_assoc. }
  split; [|split].
  - apply Hpart. unfold renderHealthLine.
    destruct (asString v); [destruct (decide _)|]; apply contains_here.
  - intros text t Hk Hs Ht. apply Hpart. unfold renderHealthLine.
    rewrite Hs. unfold TimestampField1, TimestampField2, TimestampField3.
    destruct (decide _) as [_|Hn]; [|contradiction].
    rewrite Ht. do 3 apply contains_app_l. exists "", "".
    now rewrite str_app_nil_r.
  - intros Hother. apply Hpart. unfold renderHealthLine.
    unfold TimestampField1, TimestampField2, TimestampField3.
    destruct (asString v) as [text|] eqn:Hs.
    + destruct Hother as [(H1 & H2 & H3)|Hnone]; [|discriminate].
      destruct (decide _) as [[?|[?|?]]|_]; try contradiction.
      do 3 apply contains_app_l. exists "", "". now rewrite str_app_nil_r.
    + do 3 apply contains_app_l. exists "", "". now rewrite str_app_nil_r.
Qed.

End HealthSection.

(** ** The further theorems on sample inputs *)

Lemma other_targets_untouched_witness :
  exists m' c,
    Update Reference.ParseDuration Reference.watching
      (pingResultWithIndex "" (Some "i/o timeout") 0) = Some (m', c) /\
    1 <> 0 /\
    index (lastPing m') 1 = index (lastPing Reference.watching) 1 /\
    index (lastError m') 1 = index (lastError Reference.watching) 1 /\
    index (lastHealthGeneric m') 1
      = index (lastHealthGeneric Reference.watching) 1.
Proof.
  assert (Hne : 1 <> 0) by discriminate.
  eexists _, _. split; [reflexivity|]. split; [exact Hne|].
  exact (other_targets_untouched Reference.Scalar Reference.ParseDuration
           Reference.watching _ (pingResultWithIndex "" (Some "i/o timeout") 0)
           _ 0 1 eq_refl eq_refl Hne).
Defined.

Lemma ping_success_records_witness :
  wf Reference.watching /\ target Reference.watching 1 /\
  exists m' c,
    Update Reference.ParseDuration Reference.watching
      (pingResultWithIndex "Ping to example.org:" None 1) = Some (m', c) /\
    index (lastPing m') 1 = Some "Ping to example.org:" /\
    index (lastError m') 1 = Some "" /\
    lastHealthGeneric m' = lastHealthGeneric Reference.watching.
Proof.
  assert (Hwf : wf Reference.watching) by (repeat split; reflexivity).
  assert (Hi : target Reference.watching 1) by (unfold target, len; simpl; lia).
  split; [exact Hwf|]. split; [exact Hi|].
  exact (ping_success_records Reference.Scalar Reference.ParseDuration
           Reference.watching 1 "Ping to example.org:" Hwf Hi).
Defined.

Lemma health_success_records_witness :
  wf Samples.unscheduled /\ target Samples.unscheduled 1 /\
  exists m' c,
    Update Reference.ParseDuration Samples.unscheduled
      (healthResultGenericWithIndex (Some ∅) None 1) = Some (m', c) /\
    index (lastHealthGeneric m') 1 = Some (Some ∅) /\
    lastError m' = lastError Samples.unscheduled /\
    lastPing m' = lastPing Samples.unscheduled.
Proof.
  assert (Hwf : wf Samples.unscheduled) by (repeat split; reflexivity).
  assert (Hi : target Samples.unscheduled 1) by (unfold target, len; simpl; lia).
  split; [exact Hwf|]. split; [exact Hi|].
  exact (health_success_records Reference.Scalar Reference.ParseDuration
           Samples.unscheduled 1 (Some ∅) Hwf Hi).
Defined.

Lemma quit_only_on_quit_keys_witness :
  Update Reference.ParseDuration Reference.watching (KeyMsg "q")
  = Some (set_quit Reference.Scalar Reference.watching, Some Quit).
Proof.
  apply (proj2 (quit_only_on_quit_keys Reference.Scalar Reference.ParseDuration
                  Reference.watching _ (KeyMsg "q"))).
  exists "q". split; [reflexivity|]. split; [right; reflexivity | reflexivity].
Defined.

Lemma feed_configuration_fixed_witness :
  exists m' cmds,
    feed Reference.ParseDuration Reference.watching Samples.tickThenQuit
      = Some (m', cmds) /\
    websites m' = websites Reference.watching /\
    schedule m' = schedule Reference.watching /\
    healthEndpoint m' = healthEndpoint Reference.watching /\
    timezone m' = timezone Reference.watching /\
    (wf Reference.watching -> wf m') /\
    (length cmds <= 2)%nat.
Proof.
  eexists _, _. split; [reflexivity|].
  exact (feed_configuration_fixed Reference.Scalar Reference.ParseDuration
           Samples.tickThenQuit Reference.watching _ _ eq_refl).
Defined.

Lemma cancellation_is_final_witness :
  exists m' cmds,
    feed Reference.ParseDuration
      (set_quit Reference.Scalar Reference.watching) Samples.failThenTick
      = Some (m', cmds) /\
    quit m' = true /\ cancelled m' = true.
Proof.
  eexists _, _. split; [reflexivity|].
  destruct (cancellation_is_final Reference.Scalar Reference.ParseDuration
              Samples.failThenTick
              (set_quit Reference.Scalar Reference.watching) _ _ eq_refl)
    as [Hq Hc].
  split; [apply Hq | apply Hc]; reflexivity.
Defined.


Lemma command_messages_keep_target_witness :
  scheduledFor (HealthClosure "example.com" "/health" 1) = Some 1 /\
  forall msg : Msg Reference.Scalar,
    result (run Samples.offline
              (healthBody Reference.unmarshalObject "example.com" "/health" 1) 0)
      = Returned msg ->
    msgIndex msg = Some 1.
Proof.
  assert (Hc : scheduledFor (HealthClosure "example.com" "/health" 1) = Some 1)
    by reflexivity.
  split; [exact Hc|].
  destruct (command_messages_keep_target Reference.Scalar
              Reference.unmarshalObject
              (HealthClosure "example.com" "/health" 1) 1 Hc)
    as (body & Hb & Hall).
  injection Hb as <-.
  intros msg Hmsg. exact (proj1 (Hall Time Samples.offline 0 msg Hmsg)).
Defined.

Lemma ping_outcomes_witness :
  exists text,
    text <> "" /\
    result (run (scripted (Any:=Reference.Scalar) 3000000 200 "{}")
              (pingBody "example.com" 0) 0)
    = Returned (pingResultWithIndex text None 0).
Proof.
  destruct (ping_outcomes Reference.Scalar (scripted 3000000 200 "{}")
              0 3000000 3000000 "example.com" 0 0 (inl 0%nat)
              eq_refl eq_refl tt 3000000 6000000 3000000 eq_refl eq_refl)
    as (text & _ & Hne & Hrun).
  exists text. split; [exact Hne|]. unfold result. rewrite Hrun. reflexivity.
Defined.

Lemma health_transport_errors_witness :
  "/health" <> "" /\
  run Samples.offline
    (healthBody Reference.unmarshalObject "example.com" "/health" 0) 0
  = (Returned (healthResultGenericWithIndex None (Some "connection refused") 0),
     [MkCall (NewRequestE "GET" "https://example.com/health");
      MkCall (DoE {| Method := "GET"; URL := "https://example.com/health" |})],
     0).
Proof.
  assert (Hne : "/health" <> "") by discriminate.
  split; [exact Hne|].
  exact (health_transport_errors Reference.Scalar Reference.unmarshalObject
           Samples.offline 0 0 "example.com" "/health" 0
           (inl {| Method := "GET"; URL := "https://example.com/health" |})
           Hne eq_refl 0 (inr "connection refused") eq_refl).
Defined.

Lemma health_single_request_witness :
  "/health" <> "" /\
  trace (run (scripted 0 404 "not found")
           (healthBody Reference.unmarshalObject "example.com" "/health" 0) 0)
  = [MkCall (NewRequestE "GET" "https://example.com/health");
     MkCall (DoE {| Method := "GET"; URL := "https://example.com/health" |});
     MkCall (ReadAllE 0%nat); MkCall (CloseBodyE 0%nat)].
Proof.
  assert (Hne : "/health" <> "") by discriminate.
  split; [exact Hne|].
  exact (health_single_request Reference.Scalar Reference.unmarshalObject
           (scripted 0 404 "not found") 0 0 0 "example.com" "/health" 0
           {| Method := "GET"; URL := "https://example.com/health" |}
           {| StatusCode := 404; Body := 0%nat |} Hne eq_refl eq_refl).
Defined.

Lemma health_configured_requests_witness :
  "/health" <> "" /\
  exists t,
    trace (run (scripted 0 200 "{}")
             (healthBody Reference.unmarshalObject "example.com" "/health" 0) 0)
    = MkCall (NewRequestE "GET" "https://example.com/health") :: t.
Proof.
  assert (Hne : "/health" <> "") by discriminate.
  split; [exact Hne|].
  exact (health_configured_requests Reference.Scalar Reference.unmarshalObject
           (scripted 0 200 "{}") "example.com" "/health" 0 0 Hne).
Defined.

Lemma view_shows_websites_and_errors_witness :
  wf Samples.unscheduled /\
  exists s,
    result (run (scripted 0 200 "{}")
              (View Reference.Render Reference.asString Reference.sprintV
                 Reference.parseRFC3339 Reference.UTC Samples.unscheduled) 0)
      = Returned s /\
    contains (renderSection Reference.Render "Website:" "example.org") s /\
    contains (Reference.Render errorStyle "FAILED: i/o timeout") s.
Proof.
  assert (Hwf : wf Samples.unscheduled) by (repeat split; reflexivity).
  split; [exact Hwf|].
  destruct (view_shows_websites_and_errors Reference.Scalar Reference.Render
              Reference.asString Reference.sprintV Reference.parseRFC3339
              Reference.UTC Samples.unscheduled Hwf Time (scripted 0 200 "{}") 0)
    as (s & Hs & _ & Hsites & Herrs).
  exists s. split; [exact Hs|]. split.
  - apply (Hsites 1). reflexivity.
  - apply (Herrs 1 "i/o timeout"); [reflexivity | discriminate].
Defined.

Lemma view_silent_without_observations_witness :
  (forall j s, index (lastPing Samples.fresh) j = Some s -> s = "") /\
  (forall j d, index (lastHealthGeneric Samples.fresh) j = Some d -> d = None) /\
  exists o, forall W (h : forall X, Event Reference.Scalar X -> W -> X * W) (w : W),
    run h (View Reference.Render Reference.asString Reference.sprintV
             Reference.parseRFC3339 Reference.UTC Samples.fresh) w = (o, [], w).
Proof.
  assert (Hp : forall j s, index (lastPing Samples.fresh) j = Some s -> s = "").
  { intros j s. unfold index. destruct (decide (0 <= j)); [|discriminate].
    destruct (Z.to_nat j) as [|[|n]]; simpl; intros H;
      [injection H as <-; reflexivity | injection H as <-; reflexivity
      | discriminate]. }
  assert (Hh : forall j d,
             index (lastHealthGeneric Samples.fresh) j = Some d -> d = None).
  { intros j d. unfold index. destruct (decide (0 <= j)); [|discriminate].
    destruct (Z.to_nat j) as [|[|n]]; simpl; intros H;
      [injection H as <-; reflexivity | injection H as <-; reflexivity
      | discriminate]. }
  split; [exact Hp|]. split; [exact Hh|].
  exact (view_silent_without_observations Reference.Scalar Reference.Render
           Reference.asString Reference.sprintV Reference.parseRFC3339
           Reference.UTC Samples.fresh Hp Hh).
Defined.

Lemma main_Run_checked_witness :
  main Reference.ParseIP Reference.ParseDuration Reference.LoadLocation
    Reference.UTC Reference.unmarshalStrings Reference.quote
    (Reference.environment Reference.twoWebsites "" "" "/health")
  = Run ["example.com"; "example.org"] "10s" ["/health"; "/health"] Reference.UTC /\
  isValidSchedule Reference.ParseDuration "10s" = true /\
  firstInvalid Reference.ParseIP ["example.com"; "example.org"] = None /\
  len ["/health"; "/health"] = len ["example.com"; "example.org"].
Proof.
  assert (Hrun : main Reference.ParseIP Reference.ParseDuration
                   Reference.LoadLocation Reference.UTC
                   Reference.unmarshalStrings Reference.quote
                   (Reference.environment Reference.twoWebsites "" "" "/health")
                 = Run ["example.com"; "example.org"] "10s"
                       ["/health"; "/health"] Reference.UTC)
    by (vm_compute; reflexivity).
  split; [exact Hrun|].
  exact (main_Run_checked Reference.ParseIP Reference.ParseDuration
           Reference.LoadLocation Reference.UTC Reference.unmarshalStrings
           Reference.quote _ _ _ _ _ Hrun).
Defined.

Lemma health_endpoint_array_used_witness :
  restAccepted Reference.ParseIP Reference.ParseDuration Reference.LoadLocation
    Reference.UTC Reference.unmarshalStrings
    (Reference.environment Reference.twoWebsites "1m" "UTC" Samples.twoPaths)
    ["example.com"; "example.org"] "1m" Reference.UTC /\
  main Reference.ParseIP Reference.ParseDuration Reference.LoadLocation
    Reference.UTC Reference.unmarshalStrings Reference.quote
    (Reference.environment Reference.twoWebsites "1m" "UTC" Samples.twoPaths)
  = Run ["example.com"; "example.org"] "1m" ["/health"; "/status"] Reference.UTC.
Proof.
  assert (Hok : restAccepted Reference.ParseIP Reference.ParseDuration
            Reference.LoadLocation Reference.UTC Reference.unmarshalStrings
            (Reference.environment Reference.twoWebsites "1m" "UTC" Samples.twoPaths)
            ["example.com"; "example.org"] "1m" Reference.UTC).
  { repeat split; try (vm_compute; reflexivity). discriminate. }
  assert (Hne : Reference.environment Reference.twoWebsites "1m" "UTC"
                  Samples.twoPaths "HEALTH_ENDPOINT" <> "")
    by (vm_compute; discriminate).
  split; [exact Hok|].
  refine (health_endpoint_array_used Reference.ParseIP Reference.ParseDuration
            Reference.LoadLocation Reference.UTC Reference.unmarshalStrings
            Reference.quote _ _ _ _ ["/health"; "/status"] Hok Hne _ eq_refl).
  vm_compute. reflexivity.
Defined.

Lemma started_with_defaults_witness :
  main Reference.ParseIP Reference.ParseDuration Reference.LoadLocation
    Reference.UTC Reference.unmarshalStrings Reference.quote
    (Reference.environment Reference.twoWebsites "" "" "/health")
  = Run ["example.com"; "example.org"] "10s" ["/health"; "/health"] Reference.UTC /\
  Reference.unmarshalStrings Reference.twoWebsites
  = inl ["example.com"; "example.org"].
Proof.
  assert (Hrun : main Reference.ParseIP Reference.ParseDuration
                   Reference.LoadLocation Reference.UTC
                   Reference.unmarshalStrings Reference.quote
                   (Reference.environment Reference.twoWebsites "" "" "/health")
                 = Run ["example.com"; "example.org"] "10s"
                       ["/health"; "/health"] Reference.UTC)
    by (vm_compute; reflexivity).
  split; [exact Hrun|].
  exact (proj1 (started_with_defaults Reference.ParseIP Reference.ParseDuration
                  Reference.LoadLocation Reference.UTC
                  Reference.unmarshalStrings Reference.quote _ _ _ _ _ Hrun)).
Defined.

Lemma invalid_configuration_single_witness :
  Reference.environment "" "" "" "" "PING_WEBSITE" = "" /\
  exists out,
    Single.main Reference.ParseDuration Reference.UTC Reference.ParseIP
      Reference.LoadLocation Reference.quote
      (Reference.environment "" "" "" "") = Single.Exit 1 out.
Proof.
  assert (He : Reference.environment "" "" "" "" "PING_WEBSITE" = "")
    by reflexivity.
  split; [exact He|].
  exact (SingleFacts.invalid_configuration_single Reference.ParseDuration
           Reference.UTC Reference.ParseIP Reference.LoadLocation
           Reference.quote _ (or_introl He)).
Defined.

Lemma first_website_as_single_witness :
  wf Reference.pinged /\
  length (websites Reference.pinged) = 1%nat /\
  exists m' c,
    Update Reference.ParseDuration Reference.pinged
      (pingResultWithIndex "" (Some "i/o timeout") 0) = Some (m', c) /\
    Single.Update Reference.ParseDuration (Projection.project Reference.pinged)
      (Single.pingResult "" (Some "i/o timeout"))
    = (Projection.project m', c ≫= Projection.projectCmd).
Proof.
  assert (Hwf : wf Reference.pinged) by (repeat split; reflexivity).
  split; [exact Hwf|]. split; [reflexivity|].
  exact (first_website_as_single Reference.Scalar Reference.ParseDuration
           Reference.pinged (pingResultWithIndex "" (Some "i/o timeout") 0)
           Hwf eq_refl (or_introl eq_refl)).
Defined.

Lemma single_started_checked_witness :
  Single.main Reference.ParseDuration Reference.UTC Reference.ParseIP
    Reference.LoadLocation Reference.quote
    (Reference.environment "example.com" "" "" "/health")
  = Single.Run "example.com" "10s" "/health" Reference.UTC /\
  isValidHostname Reference.ParseIP "example.com" = true.
Proof.
  assert (Hrun : Single.main Reference.ParseDuration Reference.UTC
                   Reference.ParseIP Reference.LoadLocation Reference.quote
                   (Reference.environment "example.com" "" "" "/health")
                 = Single.Run "example.com" "10s" "/health" Reference.UTC)
    by (vm_compute; reflexivity).
  split; [exact Hrun|].
  exact (proj1 (proj2 (proj2
           (single_started_checked Reference.ParseDuration Reference.UTC
              Reference.ParseIP Reference.LoadLocation Reference.quote
              _ _ _ _ _ Hrun)))).
Defined.

Lemma hostname_shape_witness :
  isValidHostname Reference.ParseIP "example.com" = true.
Proof.
  apply (proj2 (hostname_shape Reference.ParseIP "example.com")).
  right. exists ["example"; "com"]. split; [discriminate|].
  split; [|reflexivity].
  repeat constructor; try discriminate.
Defined.

Lemma health_section_shows_entries_witness :
  exists s,
    run (scripted 0 200 "{}")
      (renderHealthSection Reference.Render Reference.asString Reference.sprintV
         Reference.parseRFC3339
         {[ "status" := Reference.SString "ok" ]} (Some Reference.UTC)) 0
    = (Returned s,
       [MkCall (RangeE {[ "status" := Reference.SString "ok" ]})], 0) /\
    extends (Reference.Render sectionTitle "Health Endpoint:") s.
Proof.
  destruct (health_section_shows_entries Reference.Scalar Reference.Render
              Reference.asString Reference.sprintV Reference.parseRFC3339
              (scripted 0 200 "{}") 0 0
              {[ "status" := Reference.SString "ok" ]} Reference.UTC
              (map_to_list {[ "status" := Reference.SString "ok" ]}) eq_refl)
    as (s & Hrun & Hext & _).
  exists s. split; [exact Hrun | exact Hext].
Defined.
